(** * Session manager of the auth context (src/lib/context/auth-context.tsx)

    A shallow embedding of [AuthContextProvider]: the React state cells, the
    browser storage it reads and writes, the promises it starts, and the
    notification poller it configures. *)

From Stdlib Require Import List String ZArith Bool Lia DecimalString.
Import ListNotations.
Local Open Scope string_scope.
Local Open Scope list_scope.

(** ** Data model *)

(** Modelled from the spec: the type [KeyPair] of lib/types/keypair, which is
    not among the sources. "{ publicKey: string, privateKey-equivalent-secret }",
    an opaque credential; [publicKey] is the only field the provider reads. *)
Record KeyPair : Type := mkKeyPair {
  publicKey : string;
  privateKey : string
}.

(** Modelled from the spec: the type [UserFull] of lib/types/user, which is
    not among the sources. "Remote-sourced record keyed by a numeric/string
    user id; carries profile fields": the provider reads [id] only, in a
    template string and in a truth test; the other profile fields travel
    along untouched. *)
Record UserFull : Type := mkUserFull {
  id : string;
  username : string
}.

(** [type UserWithKey = UserFull & { keyPair: KeyPair }]; the object spread
    [{ ...user, keyPair }] is [mkUserWithKey user keyPair]. *)
Record UserWithKey : Type := mkUserWithKey {
  profile : UserFull;
  keyPair : KeyPair
}.

(** A valid [Date], as milliseconds since the epoch. The Invalid Date is not
    among them: the provider can only get one from [new Date(string)], which
    is where the model deals with it. *)
Definition Date : Type := Z.

(** The three [localStorage] items the provider touches: ['keyPair'] (the key
    pair of the signed-in user), ['keyPairs'] (every key pair that has been
    used to sign in) and ['lastChecked'] (an ISO-8601 string). *)
Record LocalStorage : Type := mkLocalStorage {
  keyPairItem : option KeyPair;
  keyPairsItem : list KeyPair;
  lastCheckedItem : option string
}.

(** Storage accesses that may throw. *)
Inductive StorageOp : Type :=
| OpGetKeyPair
| OpSetKeyPair
| OpGetKeyPairs
| OpAddKeyPair
| OpRemoveKeyPair
| OpRemoveItem.

(** What a [catch] clause can receive. *)
Inductive Error : Type :=
| StorageError (op : StorageOp)
| TypeError
| NetworkError
| RangeError.

(** The [useState] cells of the provider together with the storage. *)
Record World : Type := mkWorld {
  user : option UserWithKey;
  users : list UserWithKey;
  error : option Error;
  loading : bool;
  lastCheckedNotifications : option Date;
  timelineCursor : option Date;
  storage : LocalStorage
}.

(** The state right after the first render:
    [useState(null)], [useState([])], [useState(null)], [useState(true)]. *)
Definition initialWorld (ls : LocalStorage) : World :=
  mkWorld None [] None true None None ls.

Definition setUser (u : option UserWithKey) (w : World) : World :=
  mkWorld u (users w) (error w) (loading w)
          (lastCheckedNotifications w) (timelineCursor w) (storage w).

Definition setUsers (us : list UserWithKey) (w : World) : World :=
  mkWorld (user w) us (error w) (loading w)
          (lastCheckedNotifications w) (timelineCursor w) (storage w).

Definition setError (e : option Error) (w : World) : World :=
  mkWorld (user w) (users w) e (loading w)
          (lastCheckedNotifications w) (timelineCursor w) (storage w).

Definition setLoading (b : bool) (w : World) : World :=
  mkWorld (user w) (users w) (error w) b
          (lastCheckedNotifications w) (timelineCursor w) (storage w).

Definition setLastCheckedNotifications (d : option Date) (w : World) : World :=
  mkWorld (user w) (users w) (error w) (loading w)
          d (timelineCursor w) (storage w).

Definition setTimelineCursor (d : option Date) (w : World) : World :=
  mkWorld (user w) (users w) (error w) (loading w)
          (lastCheckedNotifications w) d (storage w).

Definition setStorage (ls : LocalStorage) (w : World) : World :=
  mkWorld (user w) (users w) (error w) (loading w)
          (lastCheckedNotifications w) (timelineCursor w) ls.

(** ** The key-pair store (lib/storage) *)

Module KeyPairStore.

Definition samePublicKey (a b : KeyPair) : bool :=
  String.eqb (publicKey a) (publicKey b).

(** Modelled from the spec: [getKeyPair] of lib/storage, which is not among
    the sources. "getActive() -> KeyPair | null": the persisted active key
    pair, read from the ['keyPair'] item. *)
Definition getKeyPair (ls : LocalStorage) : option KeyPair :=
  keyPairItem ls.

(** Modelled from the spec: [setKeyPair] of lib/storage. "setActive(KeyPair)":
    persists the active key pair. *)
Definition setKeyPair (k : KeyPair) (ls : LocalStorage) : LocalStorage :=
  mkLocalStorage (Some k) (keyPairsItem ls) (lastCheckedItem ls).

(** Modelled from the spec: [getKeyPairs] of lib/storage. "getAll() ->
    KeyPair[] (enumeration order stable and meaningful)". The list is
    deserialised from the persisted item, so the caller holds a value of
    its own: a later [addKeyPair] does not show in it. *)
Definition getKeyPairs (ls : LocalStorage) : list KeyPair :=
  keyPairsItem ls.

(** Modelled from the spec: [addKeyPair] of lib/storage. "add(KeyPair)";
    insertion order is the enumeration order, so the new pair goes last. *)
Definition addKeyPair (k : KeyPair) (ls : LocalStorage) : LocalStorage :=
  mkLocalStorage (keyPairItem ls) (keyPairsItem ls ++ [k]) (lastCheckedItem ls).

(** Modelled from the spec: [removeKeyPair] of lib/storage.
    "remove(KeyPair)": drops the enumerated entry, found by [publicKey], the
    uniqueness key of a key pair. *)
Definition removeKeyPair (k : KeyPair) (ls : LocalStorage) : LocalStorage :=
  mkLocalStorage (keyPairItem ls)
                 (filter (fun k' => negb (samePublicKey k' k)) (keyPairsItem ls))
                 (lastCheckedItem ls).

(** [localStorage.removeItem('keyPair')]. *)
Definition removeKeyPairItem (ls : LocalStorage) : LocalStorage :=
  mkLocalStorage None (keyPairsItem ls) (lastCheckedItem ls).

(** [localStorage.getItem('lastChecked')] and
    [localStorage.setItem('lastChecked', s)]. *)
Definition getLastChecked (ls : LocalStorage) : option string :=
  lastCheckedItem ls.

Definition setLastChecked (s : string) (ls : LocalStorage) : LocalStorage :=
  mkLocalStorage (keyPairItem ls) (keyPairsItem ls) (Some s).

End KeyPairStore.
Import KeyPairStore.

(** ** Synchronous code that may throw, and the promises it leaves behind *)

(** How a call ends. *)
Inductive Outcome (A : Type) : Type :=
| Returned (a : A)
| Thrown (e : Error).
Arguments Returned {A} a.
Arguments Thrown {A} e.

(** A promise the synchronous code started and did not await:
    [void manageUser(keyPair)] and [Promise.all(keyPairs.map(fetchUserForKey))]. *)
Inductive Task : Type :=
| TManageUser (k : KeyPair)
| TFetchAll (ks : list KeyPair).

(** The world and the promises started so far, oldest first. *)
Definition Exec : Type := (World * list Task)%type.

(** A synchronous computation. State written before a throw stays written. *)
Definition M (A : Type) : Type := Exec -> Exec * Outcome A.

Definition ret {A} (a : A) : M A := fun x => (x, Returned a).

Definition bind {A B} (m : M A) (f : A -> M B) : M B :=
  fun x => match m x with
           | (x', Returned a) => f a x'
           | (x', Thrown e) => (x', Thrown e)
           end.

Definition throw {A} (e : Error) : M A := fun x => (x, Thrown e).

(** [try { body } catch (e) { handler(e) }]. *)
Definition tryCatch {A} (body : M A) (handler : Error -> M A) : M A :=
  fun x => match body x with
           | (x', Returned a) => (x', Returned a)
           | (x', Thrown e) => handler e x'
           end.

Declare Scope js_scope.
Delimit Scope js_scope with js.
Notation "x <- m ;; k" := (bind m (fun x => k))
  (at level 61, m at next level, right associativity) : js_scope.
Notation "m ;; k" := (bind m (fun _ => k))
  (at level 61, right associativity) : js_scope.
Local Open Scope js_scope.

(** A state setter of React. *)
Definition update (f : World -> World) : M unit :=
  fun '(w, ts) => ((f w, ts), Returned tt).

(** Starting a promise without awaiting it. *)
Definition spawn (t : Task) : M unit :=
  fun '(w, ts) => ((w, ts ++ [t]), Returned tt).

(** Which storage accesses throw ("storage unavailable"). *)
Definition Faults : Type := StorageOp -> bool.

Definition noFaults : Faults := fun _ => false.

Definition storageRead {A} (F : Faults) (op : StorageOp)
    (f : LocalStorage -> A) : M A :=
  fun '(w, ts) =>
    if F op then ((w, ts), Thrown (StorageError op))
    else ((w, ts), Returned (f (storage w))).

Definition storageWrite (F : Faults) (op : StorageOp)
    (f : LocalStorage -> LocalStorage) : M unit :=
  fun '(w, ts) =>
    if F op then ((w, ts), Thrown (StorageError op))
    else ((setStorage (f (storage w)) w, ts), Returned tt).

(** Running a synchronous computation from a world with nothing in flight. *)
Definition run {A} (m : M A) (w : World) : Exec * Outcome A := m (w, []).

Definition worldOf {A} (r : Exec * Outcome A) : World := fst (fst r).
Definition tasksOf {A} (r : Exec * Outcome A) : list Task := snd (fst r).
Definition outcomeOf {A} (r : Exec * Outcome A) : Outcome A := snd r.

(** ** The session manager *)

Section SessionManager.

(** [fetchJSON<UserFullResponse>(url)], of lib/fetch: the promise either
    rejects or resolves to a body, of which only the [result] field is
    read; [None] stands for a [result] that is missing or null. *)
Variable fetchJSON : string -> Outcome (option UserFull).

(** [fetchUserForKey]: [(user as UserFull) || null] keeps a user object and
    turns every other [result] into null; a rejection of [fetchJSON]
    rejects the [await]. *)
Definition fetchUserForKey (k : KeyPair) : Outcome (option UserFull) :=
  match fetchJSON ("/api/signer/" ++ publicKey k ++ "/user")%string with
  | Returned r => Returned r
  | Thrown e => Thrown e
  end.

(** [Promise.all]: fulfilled with all values, in order, when none of the
    promises rejects; rejected otherwise. *)
Fixpoint promiseAll {A} (ps : list (Outcome A)) : Outcome (list A) :=
  match ps with
  | [] => Returned []
  | Thrown e :: _ => Thrown e
  | Returned a :: ps' =>
      match promiseAll ps' with
      | Returned l => Returned (a :: l)
      | Thrown e => Thrown e
      end
  end.

(** [users.map((user, index) => ...)], from position [i] on. *)
Fixpoint mapWithIndex {A B} (f : A -> nat -> B) (i : nat) (l : list A) : list B :=
  match l with
  | [] => []
  | a :: l' => f a i :: mapWithIndex f (S i) l'
  end.

(** [.filter((user) => user !== null)]. *)
Fixpoint filterNonNull {A} (l : list (option A)) : list A :=
  match l with
  | [] => []
  | Some a :: l' => a :: filterNonNull l'
  | None :: l' => filterNonNull l'
  end.

(** The body of the [.then] callback of [handleUserAuth]:
    [user ? { ...user, keyPair: keyPairs[index] } : null], then the filter.
    [keyPairs[index]] is always in range, [users] being as long as
    [keyPairs]. *)
Definition usersWithKeys (fetched : list (option UserFull))
    (keyPairs : list KeyPair) : list UserWithKey :=
  filterNonNull
    (mapWithIndex
       (fun u index =>
          match u, nth_error keyPairs index with
          | Some u', Some k => Some (mkUserWithKey u' k)
          | _, _ => None
          end)
       0 fetched).

(** The [useEffect] keyed on [user]: when [user] is set, the persisted
    active key pair is made to match it. *)
Definition userEffect (F : Faults) : M unit :=
  fun x =>
    match user (fst x) with
    | Some u =>
        (stored <- storageRead F OpGetKeyPair getKeyPair ;;
         match stored with
         | Some k =>
             if negb (String.eqb (publicKey k) (publicKey (keyPair u)))
             then storageWrite F OpSetKeyPair (setKeyPair (keyPair u))
             else ret tt
         | None => storageWrite F OpSetKeyPair (setKeyPair (keyPair u))
         end) x
    | None => ret tt x
    end.

(** A call of the state setter [setUser] that changes [user], followed by
    the render it causes, at the end of which React runs [userEffect]. An
    effect whose storage access throws is abandoned where it stands; React
    then unmounts the provider, of which the world keeps the cells and the
    storage as they stood. *)
Definition commitUser (F : Faults) (u : option UserWithKey) (w : World) : World :=
  worldOf (run (userEffect F) (setUser u w)).

(** The [setUser] the context exposes to the user selection menu, on a call
    that changes [user]: handed the very object that is in the state, React
    neither renders nor runs the effect. *)
Definition selectUser (F : Faults) (u : UserWithKey) (w : World) : World :=
  commitUser F (Some u) w.

(** What happens when a promise started earlier settles.
    [manageUser]: after the [await], [if (user) setUser({ ...user, keyPair })]
    and [setLoading(false)]; nothing of it runs when the [await] rejects.
    The [.then] callback of [Promise.all] runs only when every fetch was
    fulfilled. *)
Definition settle (F : Faults) (t : Task) (w : World) : World :=
  match t with
  | TManageUser k =>
      match fetchUserForKey k with
      | Returned (Some u) =>
          setLoading false (commitUser F (Some (mkUserWithKey u k)) w)
      | Returned None => setLoading false w
      | Thrown _ => w
      end
  | TFetchAll ks =>
      match promiseAll (map fetchUserForKey ks) with
      | Returned fetched => setUsers (usersWithKeys fetched ks) w
      | Thrown _ => w
      end
  end.

Definition settleAll (F : Faults) (ts : list Task) (w : World) : World :=
  fold_left (fun w' t => settle F t w') ts w.

(** The synchronous part of [handleUserAuth(forceKeyPair?)]. *)
Definition handleUserAuthSync (F : Faults) (forceKeyPair : option KeyPair) : M unit :=
  update (setLoading true) ;;
  match forceKeyPair with
  | Some k => storageWrite F OpSetKeyPair (setKeyPair k)
  | None => ret tt
  end ;;
  stored <- match forceKeyPair with
            | Some k => ret (Some k)
            | None => storageRead F OpGetKeyPair getKeyPair
            end ;;
  keyPairs <- storageRead F OpGetKeyPairs getKeyPairs ;;
  let keyPair :=
    match stored, keyPairs with
    | None, first :: _ => Some first
    | _, _ => stored
    end in
  match keyPair with
  | Some k => spawn (TManageUser k)
  | None => update (commitUser F None) ;; update (setLoading false)
  end ;;
  match keyPair with
  | Some k =>
      if negb (existsb (fun k_ => String.eqb (publicKey k_) (publicKey k)) keyPairs)
      then storageWrite F OpAddKeyPair (addKeyPair k)
      else ret tt
  | None => ret tt
  end ;;
  spawn (TFetchAll keyPairs).

(** A call of [handleUserAuth] together with the settling of the promises
    it started; the outcome is that of the synchronous part, the only one
    the caller can observe. *)
Definition handleUserAuth (F : Faults) (forceKeyPair : option KeyPair)
    (w : World) : World * Outcome unit :=
  let r := run (handleUserAuthSync F forceKeyPair) w in
  (settleAll F (tasksOf r) (worldOf r), outcomeOf r).

(** The body of the [try] block of [signOut]. [getKeyPair] returns null when
    nobody is signed in; the spec gives [remove] a key pair only, and a
    removal by [publicKey] of null is taken to throw. *)
Definition signOutBody (F : Faults) : M unit :=
  stored <- storageRead F OpGetKeyPair getKeyPair ;;
  storageWrite F OpRemoveItem removeKeyPairItem ;;
  match stored with
  | Some k => storageWrite F OpRemoveKeyPair (removeKeyPair k)
  | None => throw TypeError
  end ;;
  handleUserAuthSync F None.

(** [signOut]: [try { ... } catch (error) { setError(error) }]. *)
Definition signOutSync (F : Faults) : M unit :=
  tryCatch (signOutBody F) (fun e => update (setError (Some e))).

Definition signOut (F : Faults) (w : World) : World * Outcome unit :=
  let r := run (signOutSync F) w in
  (settleAll F (tasksOf r) (worldOf r), outcomeOf r).

(** The session a key pair resolves to, if any. *)
Definition sessionOf (k : KeyPair) : option UserWithKey :=
  match fetchUserForKey k with
  | Returned (Some u) => Some (mkUserWithKey u k)
  | _ => None
  end.

Definition rejected (k : KeyPair) : bool :=
  match fetchUserForKey k with
  | Thrown _ => true
  | Returned _ => false
  end.

End SessionManager.

Arguments fetchUserForKey fetchJSON k : simpl never.

(** ** What a call of [handleUserAuth] works on *)

(** The key pair [handleUserAuth] settles on: the forced one, else the
    persisted active one, else the first enumerated one. *)
Definition candidate (forceKeyPair : option KeyPair) (ls : LocalStorage)
    : option KeyPair :=
  match forceKeyPair with
  | Some k => Some k
  | None =>
      match getKeyPair ls, getKeyPairs ls with
      | None, first :: _ => Some first
      | stored, _ => stored
      end
  end.

Definition enumerated (k : KeyPair) (ks : list KeyPair) : bool :=
  existsb (fun k_ => String.eqb (publicKey k_) (publicKey k)) ks.

(** The storage as the synchronous part of [handleUserAuth] leaves it. *)
Definition storageAfterSync (forceKeyPair : option KeyPair) (ls : LocalStorage)
    : LocalStorage :=
  let ls1 := match forceKeyPair with
             | Some k => setKeyPair k ls
             | None => ls
             end in
  match candidate forceKeyPair ls with
  | Some k => if enumerated k (getKeyPairs ls) then ls1 else addKeyPair k ls1
  | None => ls1
  end.

(** What [userEffect] does to the storage when [user] holds key pair [k]. *)
Definition reconcile (k : KeyPair) (ls : LocalStorage) : LocalStorage :=
  match getKeyPair ls with
  | Some stored =>
      if String.eqb (publicKey stored) (publicKey k) then ls else setKeyPair k ls
  | None => setKeyPair k ls
  end.

(** The number of entries of [users] that carry a given public key. *)
Definition entriesFor (pk : string) (us : list UserWithKey) : nat :=
  List.length (filter (fun s => String.eqb (publicKey (keyPair s)) pk) us).

(** Two worlds that show the same session: the same [user], [users],
    [loading] and [error], and the same key pairs in the store. *)
Definition sameSession (w1 w2 : World) : Prop :=
  user w1 = user w2 /\ users w1 = users w2 /\
  loading w1 = loading w2 /\ error w1 = error w2 /\
  getKeyPair (storage w1) = getKeyPair (storage w2) /\
  getKeyPairs (storage w1) = getKeyPairs (storage w2).

(** ** Notifications *)

(** Modelled from the spec: the type [NotificationsResponseSummary] of
    lib/types/notifications, which is not among the sources. "A summary
    containing a badge count": the provider reads [badgeCount] only. *)
Record NotificationsResponseSummary : Type := mkSummary {
  badgeCount : Z
}.


(** [userNotifications: userNotifications?.badgeCount || null], the value the
    context exposes. *)
Definition exposedUserNotifications (data : option NotificationsResponseSummary)
    : option Z :=
  match data with
  | Some summary =>
      if (badgeCount summary =? 0)%Z then None else Some (badgeCount summary)
  | None => None
  end.

Section Notifications.

(** [Date.prototype.toISOString] on a valid date, and [new Date(string)]:
    [None] is the Invalid Date that a string which is no date gives. *)
Variable toISOString : Date -> string.
Variable parseDate : string -> option Date.

(** The first argument of [useSWR]:
    [router.pathname !== '/notifications' && user?.id && lastCheckedNotifications
       ? `/api/user/${user.id}/notifications?last_time=${...toISOString()}` : null]. *)
Definition notificationsKey (pathname : string) (w : World) : option string :=
  if negb (String.eqb pathname "/notifications") then
    match user w with
    | Some u =>
        if negb (String.eqb (id (profile u)) "") then
          match lastCheckedNotifications w with
          | Some d =>
              Some ("/api/user/" ++ id (profile u)
                    ++ "/notifications?last_time=" ++ toISOString d)%string
          | None => None
          end
        else None
    | None => None
    end
  else None.


(** The [useEffect] keyed on [lastCheckedNotifications]. The date it finds
    is a valid one, on which [toISOString()] does not throw: the Invalid
    Date of the startup effect never gets here, see [startup]. *)
Definition lastCheckedEffect (w : World) : World :=
  match lastCheckedNotifications w with
  | Some d => setStorage (setLastChecked (toISOString d) (storage w)) w
  | None => w
  end.

(** A call of [setLastCheckedNotifications] followed by the render it
    causes and the effect React runs after it. *)
Definition commitLastChecked (d : option Date) (w : World) : World :=
  lastCheckedEffect (setLastCheckedNotifications d w).

(** [resetNotifications], called at time [now]. *)
Definition resetNotifications (now : Date) (w : World) : World :=
  commitLastChecked (Some now) w.

(** [localStorage.getItem('lastChecked') || new Date().toISOString()]. *)
Definition lastCheckedOrNow (now : Date) (ls : LocalStorage) : string :=
  match getLastChecked ls with
  | Some s => if String.eqb s "" then toISOString now else s
  | None => toISOString now
  end.

(** The body of the effect run once after mounting; [now] and [cursorNow]
    are what the two [new Date()] give. An Invalid Date does not live in the
    state of the model: the render and the effect that follow
    [setLastCheckedNotifications] call [toISOString()] on it, which throws a
    RangeError; the RangeError is raised here, where the Invalid Date is
    made. *)
Definition startupSync (F : Faults) (now cursorNow : Date) : M unit :=
  handleUserAuthSync F None ;;
  (fun x =>
     match parseDate (lastCheckedOrNow now (storage (fst x))) with
     | Some d => update (setLastCheckedNotifications (Some d)) x
     | None => throw RangeError x
     end) ;;
  update (setTimelineCursor (Some cursorNow)).

(** The startup effect and what follows it. When the effect, or the render
    and the effects after it, throw, React unmounts the provider: its cells
    are gone, the promises still in flight settle into nothing, and the
    world is kept for what its storage holds. *)
Definition startup (fetchJSON : string -> Outcome (option UserFull))
    (F : Faults) (now cursorNow : Date) (w : World) : World * Outcome unit :=
  let r := run (startupSync F now cursorNow) w in
  match outcomeOf r with
  | Returned _ =>
      (settleAll fetchJSON F (tasksOf r) (lastCheckedEffect (worldOf r)), Returned tt)
  | Thrown e => (worldOf r, Thrown e)
  end.

End Notifications.

(** ** Concrete identities, used to run the model *)

Module Scenario.

Definition keyA : KeyPair := mkKeyPair "pkA" "skA".
Definition keyB : KeyPair := mkKeyPair "pkB" "skB".
Definition keyC : KeyPair := mkKeyPair "pkC" "skC".
Definition keyD : KeyPair := mkKeyPair "pkD" "skD".

Definition alice : UserFull := mkUserFull "1" "alice".
Definition bob : UserFull := mkUserFull "2" "bob".

Definition sessionA : UserWithKey := mkUserWithKey alice keyA.
Definition sessionB : UserWithKey := mkUserWithKey bob keyB.

(** A remote that knows the signers [pkA] and [pkB], answers with an empty
    [result] for [pkC] and is unreachable for every other address. *)
Definition remote (url : string) : Outcome (option UserFull) :=
  if String.eqb url "/api/signer/pkA/user" then Returned (Some alice)
  else if String.eqb url "/api/signer/pkB/user" then Returned (Some bob)
  else if String.eqb url "/api/signer/pkC/user" then Returned None
  else Thrown NetworkError.

(** A rendering of dates that [parseDate] reads back: the decimal digits
    of the milliseconds. *)
Definition toISOString (d : Date) : string :=
  NilEmpty.string_of_int (Z.to_int d).

Definition parseDate (s : string) : option Date :=
  match NilEmpty.int_of_string s with
  | Some i => Some (Z.of_int i)
  | None => None
  end.

(** A world in which [sessionA] is signed in and nothing is in flight. *)
Definition signedIn (all : list KeyPair) : World :=
  mkWorld (Some sessionA) [sessionA] None false None None
          (mkLocalStorage (Some keyA) all None).

End Scenario.

(** ** The outcome of [handleUserAuth] on a storage that does not throw *)

Section HealthyStorage.

Variable fetchJSON : string -> Outcome (option UserFull).

Lemma setStorage_same w : setStorage (storage w) w = w.
Proof. destruct w; reflexivity. Qed.

Lemma handleUserAuthSync_noFaults forceKeyPair w :
  run (handleUserAuthSync noFaults forceKeyPair) w =
  match candidate forceKeyPair (storage w) with
  | Some k =>
      ((setStorage (storageAfterSync forceKeyPair (storage w)) (setLoading true w),
        [TManageUser k; TFetchAll (getKeyPairs (storage w))]),
       Returned tt)
  | None =>
      ((setLoading false (setUser None (setLoading true w)),
        [TFetchAll (getKeyPairs (storage w))]),
       Returned tt)
  end.
Proof.
  destruct w as [u us e l lc tc [act all lch]].
  destruct forceKeyPair as [k|]; [|destruct act as [k|]; [|destruct all as [|k all]]];
    cbn; unfold storageAfterSync, candidate, enumerated; cbn;
    rewrite ?String.eqb_refl; cbn;
    try reflexivity;
    match goal with
    | |- context [existsb ?f ?l] => destruct (existsb f l); reflexivity
    end.
Qed.

Lemma promiseAll_map_none_rejected ks :
  forallb (fun k => negb (rejected fetchJSON k)) ks = true ->
  promiseAll (map (fetchUserForKey fetchJSON) ks) =
  Returned (map (fun k => match fetchUserForKey fetchJSON k with
                          | Returned r => r
                          | Thrown _ => None
                          end) ks).
Proof.
  induction ks as [|k ks IH]; cbn; [reflexivity|].
  unfold rejected at 1.
  destruct (fetchUserForKey fetchJSON k); cbn; [|discriminate].
  intros H. rewrite (IH H). reflexivity.
Qed.

Lemma promiseAll_map_some_rejected ks :
  forallb (fun k => negb (rejected fetchJSON k)) ks = false ->
  exists e, promiseAll (map (fetchUserForKey fetchJSON) ks) = Thrown e.
Proof.
  induction ks as [|k ks IH]; cbn; [discriminate|].
  unfold rejected at 1.
  destruct (fetchUserForKey fetchJSON k) as [r|e]; cbn.
  - intros H. destruct (IH H) as [e He]. rewrite He. eauto.
  - eauto.
Qed.

(** Pairing by index agrees with pairing each key pair with its own fetch. *)
Lemma mapWithIndex_nth_error (f : KeyPair -> option UserFull) pre ks :
  mapWithIndex
    (fun u index =>
       match u, nth_error (pre ++ ks) index with
       | Some u', Some k => Some (mkUserWithKey u' k)
       | _, _ => None
       end)
    (List.length pre) (map f ks) =
  map (fun k => match f k with
                | Some u' => Some (mkUserWithKey u' k)
                | None => None
                end) ks.
Proof.
  revert pre. induction ks as [|k ks IH]; intros pre; cbn; [reflexivity|].
  f_equal.
  - rewrite nth_error_app2 by lia. rewrite Nat.sub_diag. reflexivity.
  - specialize (IH (pre ++ [k])).
    rewrite <- app_assoc, length_app in IH. cbn in IH.
    rewrite Nat.add_1_r in IH. exact IH.
Qed.

Lemma usersWithKeys_sessions ks :
  usersWithKeys
    (map (fun k => match fetchUserForKey fetchJSON k with
                   | Returned r => r
                   | Thrown _ => None
                   end) ks) ks =
  filterNonNull (map (sessionOf fetchJSON) ks).
Proof.
  unfold usersWithKeys.
  pose proof (mapWithIndex_nth_error
                (fun k => match fetchUserForKey fetchJSON k with
                          | Returned r => r
                          | Thrown _ => None
                          end) [] ks) as H.
  cbn [app List.length] in H. rewrite H.
  f_equal. apply map_ext. intros k. unfold sessionOf.
  destruct (fetchUserForKey fetchJSON k) as [[u|]|e]; reflexivity.
Qed.

(** What the settling of the bulk fetch does to [users]. *)
Lemma settle_fetchAll F ks w :
  settle fetchJSON F (TFetchAll ks) w =
  if forallb (fun k => negb (rejected fetchJSON k)) ks
  then setUsers (filterNonNull (map (sessionOf fetchJSON) ks)) w
  else w.
Proof.
  cbn. destruct (forallb _ ks) eqn:H.
  - rewrite (promiseAll_map_none_rejected ks H), usersWithKeys_sessions. reflexivity.
  - destruct (promiseAll_map_some_rejected ks H) as [e ->]. reflexivity.
Qed.

Lemma commitUser_noFaults u w :
  commitUser noFaults (Some u) w =
  setStorage (reconcile (keyPair u) (storage w)) (setUser (Some u) w).
Proof.
  destruct w as [u0 us e l lc tc [act all lch]].
  unfold commitUser, reconcile. cbn.
  destruct act as [k|]; cbn; [|reflexivity].
  destruct (String.eqb (publicKey k) (publicKey (keyPair u))); reflexivity.
Qed.

Lemma settle_manageUser_noFaults k w :
  settle fetchJSON noFaults (TManageUser k) w =
  match fetchUserForKey fetchJSON k with
  | Returned (Some u) =>
      setLoading false
        (setStorage (reconcile k (storage w)) (setUser (Some (mkUserWithKey u k)) w))
  | Returned None => setLoading false w
  | Thrown _ => w
  end.
Proof.
  cbn [settle].
  destruct (fetchUserForKey fetchJSON k) as [[u|]|e]; try reflexivity.
  rewrite commitUser_noFaults. reflexivity.
Qed.

Lemma handleUserAuth_noFaults forceKeyPair w :
  handleUserAuth fetchJSON noFaults forceKeyPair w =
  (settle fetchJSON noFaults (TFetchAll (getKeyPairs (storage w)))
     match candidate forceKeyPair (storage w) with
     | Some k =>
         settle fetchJSON noFaults (TManageUser k)
           (setStorage (storageAfterSync forceKeyPair (storage w))
                       (setLoading true w))
     | None => setLoading false (setUser None (setLoading true w))
     end,
   Returned tt).
Proof.
  unfold handleUserAuth. rewrite handleUserAuthSync_noFaults.
  destruct (candidate forceKeyPair (storage w)); reflexivity.
Qed.

(** X3. The two promises of one call touch different cells: the order in
    which they settle does not matter, whatever the storage does. *)
Lemma settle_commute F k ks w :
  settle fetchJSON F (TFetchAll ks) (settle fetchJSON F (TManageUser k) w) =
  settle fetchJSON F (TManageUser k) (settle fetchJSON F (TFetchAll ks) w).
Proof.
  rewrite !settle_fetchAll.
  destruct (forallb (fun k0 => negb (rejected fetchJSON k0)) ks); [|reflexivity].
  cbn [settle].
  destruct (fetchUserForKey fetchJSON k) as [[u|]|e]; try reflexivity.
  destruct w as [u0 us e l lc tc [act all lch]].
  unfold commitUser, run, userEffect, bind, storageRead, storageWrite, ret,
    worldOf, getKeyPair.
  cbn.
  destruct (F OpGetKeyPair); cbn; [reflexivity|].
  destruct act as [k'|]; cbn.
  - destruct (String.eqb (publicKey k') (publicKey k)); cbn; [reflexivity|].
    destruct (F OpSetKeyPair); reflexivity.
  - destruct (F OpSetKeyPair); reflexivity.
Qed.

(** [users] after a call: rebuilt from the key pairs enumerated when the
    call started, unless one of their fetches rejected. *)
Lemma handleUserAuth_users forceKeyPair w :
  users (fst (handleUserAuth fetchJSON noFaults forceKeyPair w)) =
  if forallb (fun k => negb (rejected fetchJSON k)) (getKeyPairs (storage w))
  then filterNonNull (map (sessionOf fetchJSON) (getKeyPairs (storage w)))
  else users w.
Proof.
  rewrite handleUserAuth_noFaults. cbn [fst].
  rewrite settle_fetchAll.
  destruct (forallb _ (getKeyPairs (storage w))); [reflexivity|].
  destruct (candidate forceKeyPair (storage w)) as [k|]; [|reflexivity].
  rewrite settle_manageUser_noFaults.
  destruct (fetchUserForKey fetchJSON k) as [[u|]|e]; reflexivity.
Qed.

(** [user] after a call. *)
Lemma handleUserAuth_user forceKeyPair w :
  user (fst (handleUserAuth fetchJSON noFaults forceKeyPair w)) =
  match candidate forceKeyPair (storage w) with
  | Some k =>
      match fetchUserForKey fetchJSON k with
      | Returned (Some u) => Some (mkUserWithKey u k)
      | _ => user w
      end
  | None => None
  end.
Proof.
  rewrite handleUserAuth_noFaults. cbn [fst].
  rewrite settle_fetchAll.
  destruct (candidate forceKeyPair (storage w)) as [k|].
  - rewrite settle_manageUser_noFaults.
    destruct (fetchUserForKey fetchJSON k) as [[u|]|e];
      destruct (forallb _ (getKeyPairs (storage w))); reflexivity.
  - destruct (forallb _ (getKeyPairs (storage w))); reflexivity.
Qed.

(** [loading] after a call. *)
Lemma handleUserAuth_loading forceKeyPair w :
  loading (fst (handleUserAuth fetchJSON noFaults forceKeyPair w)) =
  match candidate forceKeyPair (storage w) with
  | Some k => rejected fetchJSON k
  | None => false
  end.
Proof.
  rewrite handleUserAuth_noFaults. cbn [fst].
  rewrite settle_fetchAll. unfold rejected at 2.
  destruct (candidate forceKeyPair (storage w)) as [k|].
  - rewrite settle_manageUser_noFaults.
    destruct (fetchUserForKey fetchJSON k) as [[u|]|e];
      destruct (forallb _ (getKeyPairs (storage w))); reflexivity.
  - destruct (forallb _ (getKeyPairs (storage w))); reflexivity.
Qed.

(** [error] is not touched by a call. *)
Lemma handleUserAuth_error forceKeyPair w :
  error (fst (handleUserAuth fetchJSON noFaults forceKeyPair w)) = error w.
Proof.
  rewrite handleUserAuth_noFaults. cbn [fst].
  rewrite settle_fetchAll.
  destruct (candidate forceKeyPair (storage w)) as [k|].
  - rewrite settle_manageUser_noFaults.
    destruct (fetchUserForKey fetchJSON k) as [[u|]|e];
      destruct (forallb _ (getKeyPairs (storage w))); reflexivity.
  - destruct (forallb _ (getKeyPairs (storage w))); reflexivity.
Qed.

(** The storage after a call. *)
Lemma handleUserAuth_storage forceKeyPair w :
  storage (fst (handleUserAuth fetchJSON noFaults forceKeyPair w)) =
  match candidate forceKeyPair (storage w) with
  | Some k =>
      match fetchUserForKey fetchJSON k with
      | Returned (Some _) =>
          reconcile k (storageAfterSync forceKeyPair (storage w))
      | _ => storageAfterSync forceKeyPair (storage w)
      end
  | None => storage w
  end.
Proof.
  rewrite handleUserAuth_noFaults. cbn [fst].
  rewrite settle_fetchAll.
  destruct (candidate forceKeyPair (storage w)) as [k|] eqn:Hc.
  - rewrite settle_manageUser_noFaults.
    destruct (fetchUserForKey fetchJSON k) as [[u|]|e];
      destruct (forallb _ (getKeyPairs (storage w))); reflexivity.
  - destruct (forallb _ (getKeyPairs (storage w))); reflexivity.
Qed.

End HealthyStorage.

(** ** Properties of the session manager *)

Section SessionProperties.

Variable fetchJSON : string -> Outcome (option UserFull).

Lemma filterNonNull_In {A} (l : list (option A)) a :
  In a (filterNonNull l) <-> In (Some a) l.
Proof.
  induction l as [|[b|] l IH]; cbn; [tauto| |].
  - rewrite IH. split; intros [H|H]; auto; left; congruence.
  - rewrite IH. split; [auto|]. intros [H|H]; [discriminate|exact H].
Qed.

(** Every entry of the rebuilt [users] pairs an enumerated key pair with
    the profile it resolved to. *)
Lemma sessions_In ks s :
  In s (filterNonNull (map (sessionOf fetchJSON) ks)) <->
  In (keyPair s) ks /\
  fetchUserForKey fetchJSON (keyPair s) = Returned (Some (profile s)).
Proof.
  rewrite filterNonNull_In, in_map_iff. unfold sessionOf. split.
  - intros [k [Hk Hin]].
    destruct (fetchUserForKey fetchJSON k) as [[u|]|e] eqn:E; try discriminate.
    injection Hk as <-. cbn. auto.
  - intros [Hin Hf]. exists (keyPair s). rewrite Hf.
    destruct s; auto.
Qed.

Lemma entriesFor_absent pk ks :
  ~ In pk (map publicKey ks) ->
  entriesFor pk (filterNonNull (map (sessionOf fetchJSON) ks)) = 0.
Proof.
  unfold entriesFor. induction ks as [|k ks IH]; cbn; [reflexivity|].
  intros H. unfold sessionOf at 1.
  destruct (fetchUserForKey fetchJSON k) as [[u|]|e]; cbn; auto.
  destruct (String.eqb_spec (publicKey k) pk) as [E|E]; [tauto|auto].
Qed.

(** With distinct public keys in the enumeration, a key pair has one entry
    when it resolved and none otherwise. *)
Lemma entriesFor_sessions ks k :
  NoDup (map publicKey ks) -> In k ks ->
  entriesFor (publicKey k) (filterNonNull (map (sessionOf fetchJSON) ks)) =
  match sessionOf fetchJSON k with Some _ => 1 | None => 0 end.
Proof.
  induction ks as [|k0 ks IH]; cbn; [tauto|].
  intros Hnd Hin. inversion Hnd as [|pk0 pks Hnot Hnd']; subst.
  destruct Hin as [->|Hin].
  - pose proof (entriesFor_absent _ _ Hnot) as H0.
    unfold entriesFor, sessionOf in *.
    destruct (fetchUserForKey fetchJSON k) as [[u|]|e]; cbn;
      rewrite ?String.eqb_refl; cbn; rewrite H0; reflexivity.
  - rewrite <- (IH Hnd' Hin). unfold entriesFor, sessionOf at 1.
    destruct (fetchUserForKey fetchJSON k0) as [[u|]|e]; cbn; auto.
    destruct (String.eqb_spec (publicKey k0) (publicKey k)) as [E|E]; auto.
    exfalso. apply Hnot. rewrite E. apply in_map. exact Hin.
Qed.

Lemma storageAfterSync_enumerated forceKeyPair ls k :
  candidate forceKeyPair ls = Some k ->
  enumerated k (getKeyPairs ls) = true ->
  getKeyPairs (storageAfterSync forceKeyPair ls) = getKeyPairs ls.
Proof.
  intros Hc He. unfold storageAfterSync. rewrite Hc, He.
  destruct forceKeyPair; reflexivity.
Qed.

Lemma getKeyPairs_reconcile k ls :
  getKeyPairs (reconcile k ls) = getKeyPairs ls.
Proof.
  unfold reconcile. destruct (getKeyPair ls) as [k'|]; [|reflexivity].
  destruct (String.eqb (publicKey k') (publicKey k)); reflexivity.
Qed.

(** X1. When the candidate is already enumerated (or there is none) and no
    fetch rejects, a call
    leaves the enumeration as it was, and [users] is rebuilt from it: in
    enumeration order, one entry per key pair that resolved, none for the
    others. *)
Lemma handleUserAuth_users_enumerated forceKeyPair w :
  match candidate forceKeyPair (storage w) with
  | Some k => enumerated k (getKeyPairs (storage w)) = true
  | None => True
  end ->
  forallb (fun k => negb (rejected fetchJSON k)) (getKeyPairs (storage w)) = true ->
  let w' := fst (handleUserAuth fetchJSON noFaults forceKeyPair w) in
  getKeyPairs (storage w') = getKeyPairs (storage w) /\
  users w' = filterNonNull (map (sessionOf fetchJSON) (getKeyPairs (storage w'))) /\
  (NoDup (map publicKey (getKeyPairs (storage w'))) ->
   forall k, In k (getKeyPairs (storage w')) ->
     entriesFor (publicKey k) (users w') =
     match sessionOf fetchJSON k with Some _ => 1 | None => 0 end).
Proof.
  intros Hc Hr w'.
  assert (Hks : getKeyPairs (storage w') = getKeyPairs (storage w)).
  { subst w'. rewrite handleUserAuth_storage.
    destruct (candidate forceKeyPair (storage w)) as [k|] eqn:E; [|reflexivity].
    destruct (fetchUserForKey fetchJSON k) as [[u|]|e];
      rewrite ?getKeyPairs_reconcile;
      apply (storageAfterSync_enumerated _ _ _ E Hc). }
  assert (Hus : users w' =
                filterNonNull (map (sessionOf fetchJSON) (getKeyPairs (storage w')))).
  { rewrite Hks. subst w'. rewrite handleUserAuth_users, Hr. reflexivity. }
  split; [exact Hks|]. split; [exact Hus|].
  intros Hnd k Hin. rewrite Hus. apply entriesFor_sessions; assumption.
Qed.

End SessionProperties.

(** ** [handleUserAuth] *)

(** C1. [users] is rebuilt from the key pairs enumerated before the forced key
    pair was added to the store. Forcing the new key pair [keyB] while only
    [keyA] is stored leaves the store enumerating [keyA; keyB], and [keyB]
    resolves to a profile, yet [users] holds the session of [keyA] alone: no
    entry for [keyB]. *)
Theorem forced_key_pair_missing_from_users :
  let w' := fst (handleUserAuth Scenario.remote noFaults (Some Scenario.keyB)
                   (Scenario.signedIn [Scenario.keyA])) in
  getKeyPairs (storage w') = [Scenario.keyA; Scenario.keyB] /\
  fetchUserForKey Scenario.remote Scenario.keyB = Returned (Some Scenario.bob) /\
  user w' = Some Scenario.sessionB /\
  users w' = [Scenario.sessionA] /\
  entriesFor "pkB" (users w') = 0.
Proof. vm_compute. repeat split. Qed.

Lemma enumerated_false k ks :
  enumerated k ks = false -> ~ In (publicKey k) (map publicKey ks).
Proof.
  unfold enumerated. induction ks as [|k0 ks IH]; cbn; [tauto|].
  destruct (String.eqb_spec (publicKey k0) (publicKey k)) as [E|E]; cbn;
    [discriminate|].
  intros H [H0|H0]; [contradiction | exact (IH H H0)].
Qed.

(** The same for every forced key pair the store does not enumerate yet:
    the call adds it to the store and leaves it without an entry. *)
Lemma forced_new_key_pair_has_no_entry fetchJSON w k :
  enumerated k (getKeyPairs (storage w)) = false ->
  forallb (fun k0 => negb (rejected fetchJSON k0)) (getKeyPairs (storage w)) = true ->
  let w' := fst (handleUserAuth fetchJSON noFaults (Some k) w) in
  getKeyPairs (storage w') = getKeyPairs (storage w) ++ [k] /\
  entriesFor (publicKey k) (users w') = 0.
Proof.
  intros He Hr w'. subst w'.
  rewrite handleUserAuth_storage, handleUserAuth_users, Hr. split.
  - unfold candidate, storageAfterSync, candidate. rewrite He.
    destruct (fetchUserForKey fetchJSON k) as [[u|]|e];
      rewrite ?getKeyPairs_reconcile; reflexivity.
  - apply entriesFor_absent. apply enumerated_false. exact He.
Qed.

(** One rejected fetch keeps the [.then] callback of [Promise.all] from
    running: [users] stays what it was, whatever the other key pairs
    resolved to. *)
Lemma rejected_fetch_keeps_users fetchJSON forceKeyPair w :
  forallb (fun k => negb (rejected fetchJSON k)) (getKeyPairs (storage w)) = false ->
  users (fst (handleUserAuth fetchJSON noFaults forceKeyPair w)) = users w.
Proof. intros H. rewrite handleUserAuth_users, H. reflexivity. Qed.

(** C2. With no forced key pair, no persisted active key pair and a first
    enumerated key pair that resolves, the session of that first key pair
    becomes the active one; when the store holds two key pairs and the second
    resolves too, [users] is the two sessions in enumeration order. *)
Theorem fallback_to_first_key_pair fetchJSON w first rest u :
  getKeyPair (storage w) = None ->
  getKeyPairs (storage w) = first :: rest ->
  fetchUserForKey fetchJSON first = Returned (Some u) ->
  let w' := fst (handleUserAuth fetchJSON noFaults None w) in
  user w' = Some (mkUserWithKey u first) /\
  (forall second u2,
     rest = [second] ->
     fetchUserForKey fetchJSON second = Returned (Some u2) ->
     users w' = [mkUserWithKey u first; mkUserWithKey u2 second]).
Proof.
  intros Hact Hall Hfirst w'. subst w'. split.
  - rewrite handleUserAuth_user. unfold candidate.
    rewrite Hact, Hall, Hfirst. reflexivity.
  - intros second u2 -> Hsecond.
    rewrite handleUserAuth_users, Hall. cbn.
    unfold rejected, sessionOf. rewrite Hfirst, Hsecond. reflexivity.
Qed.

Lemma fallback_to_first_key_pair_witness :
  let w := initialWorld (mkLocalStorage None [Scenario.keyA; Scenario.keyB] None) in
  let w' := fst (handleUserAuth Scenario.remote noFaults None w) in
  user w' = Some Scenario.sessionA /\
  users w' = [Scenario.sessionA; Scenario.sessionB].
Proof.
  intros w w'.
  destruct (fallback_to_first_key_pair Scenario.remote w Scenario.keyA
              [Scenario.keyB] Scenario.alice) as [Huser Husers];
    [reflexivity | reflexivity | reflexivity |].
  split; [exact Huser|].
  apply (Husers Scenario.keyB Scenario.bob); reflexivity.
Defined.

Lemma candidate_reconcile ls k :
  candidate None ls = Some k -> candidate None (reconcile k ls) = Some k.
Proof.
  destruct ls as [act all lch]. unfold candidate, reconcile. cbn.
  destruct act as [k'|].
  - intros H. assert (k' = k) as -> by (destruct all; congruence).
    rewrite String.eqb_refl. cbn. destruct all; reflexivity.
  - destruct all as [|k0 all]; [discriminate|]. intros [= ->]. reflexivity.
Qed.

Lemma reconcile_idempotent k ls :
  reconcile k (reconcile k ls) = reconcile k ls.
Proof.
  destruct ls as [act all lch]. unfold reconcile. cbn.
  destruct act as [k'|]; cbn.
  - destruct (String.eqb (publicKey k') (publicKey k)) eqn:Ek; cbn.
    + rewrite Ek. reflexivity.
    + rewrite String.eqb_refl. reflexivity.
  - rewrite String.eqb_refl. reflexivity.
Qed.

(** X2. A second call repeats the first one whenever the first one had
    nothing to add to the store: same [user], [users], [loading] and
    storage. *)
Lemma handleUserAuth_idempotent fetchJSON w :
  match candidate None (storage w) with
  | Some k => enumerated k (getKeyPairs (storage w)) = true
  | None => True
  end ->
  let once := fst (handleUserAuth fetchJSON noFaults None w) in
  let twice := fst (handleUserAuth fetchJSON noFaults None once) in
  user twice = user once /\ users twice = users once /\
  loading twice = loading once /\ storage twice = storage once.
Proof.
  intros Hc once twice.
  assert (Hs : storage once =
               match candidate None (storage w) with
               | Some k =>
                   match fetchUserForKey fetchJSON k with
                   | Returned (Some _) => reconcile k (storage w)
                   | _ => storage w
                   end
               | None => storage w
               end).
  { subst once. rewrite handleUserAuth_storage.
    destruct (candidate None (storage w)) as [k|] eqn:E; [|reflexivity].
    unfold storageAfterSync. rewrite E, Hc. reflexivity. }
  assert (Hcand : candidate None (storage once) = candidate None (storage w)).
  { rewrite Hs. destruct (candidate None (storage w)) as [k|] eqn:E; [|exact E].
    destruct (fetchUserForKey fetchJSON k) as [[u|]|e]; try exact E.
    apply candidate_reconcile. exact E. }
  assert (Hks : getKeyPairs (storage once) = getKeyPairs (storage w)).
  { rewrite Hs. destruct (candidate None (storage w)) as [k|]; [|reflexivity].
    destruct (fetchUserForKey fetchJSON k) as [[u|]|e]; try reflexivity.
    apply getKeyPairs_reconcile. }
  assert (Hst : storage twice = storage once).
  { subst twice. rewrite handleUserAuth_storage, Hcand.
    destruct (candidate None (storage w)) as [k|] eqn:E; [|reflexivity].
    unfold storageAfterSync. rewrite Hcand, Hks, Hc.
    destruct (fetchUserForKey fetchJSON k) as [[u|]|e] eqn:Ef; try reflexivity.
    rewrite Hs. apply reconcile_idempotent. }
  subst twice. rewrite handleUserAuth_user, handleUserAuth_users,
    handleUserAuth_loading, Hcand, Hks.
  subst once. rewrite handleUserAuth_user, handleUserAuth_users,
    handleUserAuth_loading.
  repeat split.
  - destruct (candidate None (storage w)) as [k|]; [|reflexivity].
    destruct (fetchUserForKey fetchJSON k) as [[u|]|e]; reflexivity.
  - destruct (forallb _ (getKeyPairs (storage w))); reflexivity.
  - exact Hst.
Qed.

(** C3. A store whose persisted active key pair [keyA] is not yet enumerated
    (['keyPair'] set, ['keyPairs'] empty): one call resolves [keyA], adds it
    to the store and leaves [users] empty; a second call, with nothing
    changed in between, lists the session of [keyA]. Two calls do not give
    the [users] of one. *)
Theorem second_call_changes_users :
  let w := initialWorld (mkLocalStorage (Some Scenario.keyA) [] None) in
  let once := fst (handleUserAuth Scenario.remote noFaults None w) in
  let twice := fst (handleUserAuth Scenario.remote noFaults None once) in
  user once = Some Scenario.sessionA /\
  user twice = Some Scenario.sessionA /\
  map (fun s => publicKey (keyPair s)) (users once) = [] /\
  map (fun s => publicKey (keyPair s)) (users twice) = ["pkA"].
Proof. vm_compute. repeat split. Qed.

(** A candidate that resolves to no profile, or whose fetch rejects, leaves
    [user] and [error] as they were; [loading] is switched off in the first
    case only, the [setLoading(false)] of [manageUser] standing after the
    [await]. *)
Lemma unresolved_candidate fetchJSON forceKeyPair w k :
  candidate forceKeyPair (storage w) = Some k ->
  let w' := fst (handleUserAuth fetchJSON noFaults forceKeyPair w) in
  (fetchUserForKey fetchJSON k = Returned None ->
   user w' = user w /\ error w' = error w /\ loading w' = false) /\
  (forall e, fetchUserForKey fetchJSON k = Thrown e ->
   user w' = user w /\ error w' = error w /\ loading w' = true).
Proof.
  intros Hc w'. subst w'.
  rewrite handleUserAuth_user, handleUserAuth_error, handleUserAuth_loading, Hc.
  unfold rejected.
  split; [intros H | intros e H]; rewrite H; repeat split.
Qed.

(** C6. [sessionA] is signed in and nothing is loading; [keyD], whose fetch
    fails, is forced. [user] and [error] stay as they were, but [loading],
    set at the start of the call, is never set back: it ends [true]. *)
Theorem rejected_candidate_keeps_loading :
  let w := Scenario.signedIn [Scenario.keyA] in
  let w' := fst (handleUserAuth Scenario.remote noFaults (Some Scenario.keyD) w) in
  fetchUserForKey Scenario.remote Scenario.keyD = Thrown NetworkError /\
  loading w = false /\
  user w' = user w /\
  error w' = None /\
  loading w' = true.
Proof. vm_compute. repeat split. Qed.

(** C7. With no forced key pair, no persisted active key pair and an empty
    enumeration, a call ends with no active session, an empty [users] and
    [loading] off. *)
Theorem empty_store_signs_out fetchJSON w :
  getKeyPair (storage w) = None ->
  getKeyPairs (storage w) = [] ->
  let w' := fst (handleUserAuth fetchJSON noFaults None w) in
  user w' = None /\ users w' = [] /\ loading w' = false.
Proof.
  intros Hact Hall w'. subst w'.
  rewrite handleUserAuth_user, handleUserAuth_users, handleUserAuth_loading.
  unfold candidate. rewrite Hact, Hall. repeat split.
Qed.

Lemma empty_store_signs_out_witness :
  let w := initialWorld (mkLocalStorage None [] None) in
  let w' := fst (handleUserAuth Scenario.remote noFaults None w) in
  loading w = true /\
  user w' = None /\ users w' = [] /\ loading w' = false.
Proof.
  intros w w'. split; [reflexivity|].
  apply (empty_store_signs_out Scenario.remote w); reflexivity.
Defined.

(** ** The effect on [user] *)

(** C4. Whenever [user] becomes a session whose key pair's [publicKey] is not
    that of the persisted active key pair (or none is persisted), the effect
    persists that session's key pair as the active one: after the state
    setter as such, after the [setUser] handed to the selection menu, and
    after [manageUser] resolved a key pair. *)
Theorem user_change_persists_key_pair (s : UserWithKey) (w : World) :
  (forall stored, getKeyPair (storage w) = Some stored ->
                  publicKey stored <> publicKey (keyPair s)) ->
  (user (commitUser noFaults (Some s) w) = Some s /\
   getKeyPair (storage (commitUser noFaults (Some s) w)) = Some (keyPair s)) /\
  (user (selectUser noFaults s w) = Some s /\
   getKeyPair (storage (selectUser noFaults s w)) = Some (keyPair s)) /\
  (forall fetchJSON,
     fetchUserForKey fetchJSON (keyPair s) = Returned (Some (profile s)) ->
     user (settle fetchJSON noFaults (TManageUser (keyPair s)) w) = Some s /\
     getKeyPair (storage (settle fetchJSON noFaults (TManageUser (keyPair s)) w)) =
     Some (keyPair s)).
Proof.
  intros Hdiff.
  assert (Hrec : getKeyPair (reconcile (keyPair s) (storage w)) = Some (keyPair s)).
  { unfold reconcile. destruct (getKeyPair (storage w)) as [k|] eqn:E; [|reflexivity].
    destruct (String.eqb_spec (publicKey k) (publicKey (keyPair s))) as [Ek|Ek];
      [|reflexivity].
    exfalso. exact (Hdiff k eq_refl Ek). }
  assert (Hcommit : user (commitUser noFaults (Some s) w) = Some s /\
                    getKeyPair (storage (commitUser noFaults (Some s) w)) =
                    Some (keyPair s)).
  { rewrite commitUser_noFaults. split; [reflexivity | exact Hrec]. }
  split; [exact Hcommit|]. split; [exact Hcommit|].
  intros fetchJSON Hf. rewrite settle_manageUser_noFaults, Hf.
  split; [destruct s; reflexivity | exact Hrec].
Qed.

Lemma user_change_persists_key_pair_witness :
  getKeyPair (storage (Scenario.signedIn [Scenario.keyA; Scenario.keyB])) =
    Some Scenario.keyA /\
  getKeyPair (storage (selectUser noFaults Scenario.sessionB
                         (Scenario.signedIn [Scenario.keyA; Scenario.keyB]))) =
    Some Scenario.keyB.
Proof.
  split; [reflexivity|].
  apply (user_change_persists_key_pair Scenario.sessionB
           (Scenario.signedIn [Scenario.keyA; Scenario.keyB])).
  intros stored [= <-]. discriminate.
Defined.

(** Whatever the persisted key pair was, after the effect it has the
    [publicKey] of the session in [user]. *)
Lemma user_effect_public_key s w :
  exists k, getKeyPair (storage (commitUser noFaults (Some s) w)) = Some k /\
            publicKey k = publicKey (keyPair s).
Proof.
  rewrite commitUser_noFaults. unfold reconcile. cbn.
  destruct (getKeyPair (storage w)) as [k|] eqn:E.
  - destruct (String.eqb_spec (publicKey k) (publicKey (keyPair s))) as [Ek|Ek].
    + exists k. auto.
    + exists (keyPair s). auto.
  - exists (keyPair s). auto.
Qed.

(** ** [signOut] *)

Lemma commitUser_error F u w : error (commitUser F u w) = error w.
Proof.
  destruct w as [u0 us e l lc tc [act all lch]].
  unfold commitUser, run, userEffect, bind, storageRead, storageWrite, ret,
    worldOf, getKeyPair.
  cbn. destruct u as [s|]; cbn; [|reflexivity].
  destruct (F OpGetKeyPair); cbn; [reflexivity|].
  destruct act as [k'|]; cbn.
  - destruct (String.eqb (publicKey k') (publicKey (keyPair s))); cbn; [reflexivity|].
    destruct (F OpSetKeyPair); reflexivity.
  - destruct (F OpSetKeyPair); reflexivity.
Qed.

(** No promise that settles writes [error]. *)
Lemma settle_error fetchJSON F t w : error (settle fetchJSON F t w) = error w.
Proof.
  destruct t as [k|ks]; cbn [settle].
  - destruct (fetchUserForKey fetchJSON k) as [[u|]|e]; try reflexivity.
    cbn. apply commitUser_error.
  - destruct (promiseAll _); reflexivity.
Qed.

Lemma settleAll_error fetchJSON F ts w :
  error (settleAll fetchJSON F ts w) = error w.
Proof.
  unfold settleAll. revert w.
  induction ts as [|t ts IH]; intros w; cbn; [reflexivity|].
  rewrite IH. apply settle_error.
Qed.

(** The promise [signOut] returns is always fulfilled. *)
Lemma signOut_returns fetchJSON F w :
  snd (signOut fetchJSON F w) = Returned tt.
Proof.
  unfold signOut, outcomeOf, run, signOutSync, tryCatch. cbn [snd].
  destruct (signOutBody F (w, [])) as [[w1 ts] [[]|e]]; reflexivity.
Qed.

(** What the [try] block throws ends up in [error]. *)
Lemma signOut_captures fetchJSON F w e :
  outcomeOf (run (signOutBody F) w) = Thrown e ->
  error (fst (signOut fetchJSON F w)) = Some e.
Proof.
  unfold signOut, outcomeOf, tasksOf, worldOf, run, signOutSync, tryCatch.
  cbn [fst snd].
  destruct (signOutBody F (w, [])) as [[w1 ts] [[]|e']];
    unfold update; cbn [fst snd]; [discriminate|].
  intros [= ->]. rewrite settleAll_error. reflexivity.
Qed.

(** On a storage that does not throw, [signOut] is [handleUserAuth()] run on
    the store without the active key pair. *)
Lemma signOut_noFaults fetchJSON w k :
  getKeyPair (storage w) = Some k ->
  signOut fetchJSON noFaults w =
  handleUserAuth fetchJSON noFaults None
    (setStorage (removeKeyPair k (removeKeyPairItem (storage w))) w).
Proof.
  intros Hact.
  assert (Hrun : run (signOutSync noFaults) w =
                 run (handleUserAuthSync noFaults None)
                     (setStorage (removeKeyPair k (removeKeyPairItem (storage w))) w)).
  { destruct w as [u us e l lc tc ls]. cbn [storage] in Hact.
    pose proof (handleUserAuthSync_noFaults None
                  (mkWorld u us e l lc tc (removeKeyPair k (removeKeyPairItem ls))))
      as Hs.
    unfold run in *.
    unfold signOutSync, tryCatch, signOutBody, bind,
      storageRead, storageWrite.
    cbn [noFaults storage setStorage user users error loading
         lastCheckedNotifications timelineCursor].
    rewrite Hact.
    unfold setStorage.
    cbn [noFaults storage user users error loading
         lastCheckedNotifications timelineCursor].
    rewrite Hs. destruct (candidate None _); reflexivity. }
  unfold signOut, handleUserAuth.
  rewrite Hrun. reflexivity.
Qed.

Lemma enumerated_head k ks : enumerated k (k :: ks) = true.
Proof. unfold enumerated. cbn. rewrite String.eqb_refl. reflexivity. Qed.

(** [handleUserAuth()] when no active key pair is persisted. *)
Lemma handleUserAuth_nobody_active fetchJSON w ks lch :
  storage w = mkLocalStorage None ks lch ->
  let w' := fst (handleUserAuth fetchJSON noFaults None w) in
  storage w' =
    match ks with
    | [] => mkLocalStorage None [] lch
    | next :: rest =>
        match fetchUserForKey fetchJSON next with
        | Returned (Some _) => mkLocalStorage (Some next) (next :: rest) lch
        | _ => mkLocalStorage None (next :: rest) lch
        end
    end /\
  match ks with
  | [] => user w' = None
  | next :: _ =>
      match fetchUserForKey fetchJSON next with
      | Returned (Some u) => user w' = Some (mkUserWithKey u next)
      | _ => user w' = user w
      end
  end.
Proof.
  intros Hs w'. subst w'.
  rewrite handleUserAuth_storage, handleUserAuth_user, Hs.
  destruct ks as [|next rest]; [split; reflexivity|].
  unfold candidate, storageAfterSync, candidate.
  cbn [getKeyPair getKeyPairs keyPairItem keyPairsItem].
  rewrite enumerated_head.
  destruct (fetchUserForKey fetchJSON next) as [[u'|]|e']; split; reflexivity.
Qed.

(** C5, as the code has it. After [signOut] on a storage that does not
    throw, no key pair with the [publicKey] of the one that was active is
    enumerated or persisted as active. [user] is null when no key pair
    remains, the session of the first remaining key pair when that one
    resolves to a profile, and otherwise what it was before the call.
    Whatever the storage does, nothing is thrown to the caller, and what the
    [try] block throws is found in [error]. *)
Theorem signOut_removes_active_key_pair fetchJSON w k :
  getKeyPair (storage w) = Some k ->
  let w' := fst (signOut fetchJSON noFaults w) in
  let remaining :=
    filter (fun k' => negb (samePublicKey k' k)) (getKeyPairs (storage w)) in
  getKeyPairs (storage w') = remaining /\
  (forall k', In k' (getKeyPairs (storage w')) -> publicKey k' <> publicKey k) /\
  (forall a, getKeyPair (storage w') = Some a -> publicKey a <> publicKey k) /\
  match remaining with
  | [] => user w' = None
  | next :: _ =>
      match fetchUserForKey fetchJSON next with
      | Returned (Some u) => user w' = Some (mkUserWithKey u next)
      | _ => user w' = user w
      end
  end /\
  (forall F,
     snd (signOut fetchJSON F w) = Returned tt /\
     (forall e, outcomeOf (run (signOutBody F) w) = Thrown e ->
                error (fst (signOut fetchJSON F w)) = Some e)).
Proof.
  intros Hact w' remaining.
  assert (Hin : forall k', In k' remaining -> publicKey k' <> publicKey k).
  { intros k' H. apply filter_In in H. destruct H as [_ H].
    unfold samePublicKey in H.
    destruct (String.eqb_spec (publicKey k') (publicKey k)); [discriminate|assumption]. }
  assert (Hrem : storage (setStorage (removeKeyPair k (removeKeyPairItem (storage w))) w)
                 = mkLocalStorage None remaining (lastCheckedItem (storage w))).
  { destruct w as [u us e l lc tc [act all lch]]. reflexivity. }
  destruct (handleUserAuth_nobody_active fetchJSON _ _ _ Hrem) as [Hst Hus'].
  rewrite <- (signOut_noFaults _ _ _ Hact) in Hst, Hus'.
  fold w' in Hst, Hus'.
  assert (Hus : match remaining with
                | [] => user w' = None
                | next :: _ =>
                    match fetchUserForKey fetchJSON next with
                    | Returned (Some u) => user w' = Some (mkUserWithKey u next)
                    | _ => user w' = user w
                    end
                end) by exact Hus'.
  assert (Hks : getKeyPairs (storage w') = remaining).
  { rewrite Hst. destruct remaining as [|next rest]; [reflexivity|].
    destruct (fetchUserForKey fetchJSON next) as [[u'|]|e']; reflexivity. }
  split; [exact Hks|]. split; [rewrite Hks; exact Hin|].
  split; [|split; [exact Hus|]].
  - intros a Ha. rewrite Hst in Ha.
    destruct remaining as [|next rest]; [discriminate|].
    destruct (fetchUserForKey fetchJSON next) as [[u'|]|e']; try discriminate.
    injection Ha as <-. apply Hin. left. reflexivity.
  - intros F. split; [apply signOut_returns | apply signOut_captures].
Qed.

Lemma signOut_removes_active_key_pair_witness :
  let w := Scenario.signedIn [Scenario.keyA; Scenario.keyB] in
  let w' := fst (signOut Scenario.remote noFaults w) in
  getKeyPairs (storage w') = [Scenario.keyB] /\
  user w' = Some Scenario.sessionB /\
  error (fst (signOut Scenario.remote
                (fun op => match op with OpRemoveKeyPair => true | _ => false end)
                w)) = Some (StorageError OpRemoveKeyPair).
Proof.
  intros w w'.
  destruct (signOut_removes_active_key_pair Scenario.remote w Scenario.keyA eq_refl)
    as [Hks [_ [_ [Hus Herr]]]].
  split; [exact Hks|]. split; [exact Hus|].
  apply Herr. reflexivity.
Defined.

(** C5, as the claim has it, fails: [keyA] signs out while [keyC], which
    resolves to no profile, remains; [user] is still the session of [keyA]. *)
Lemma signOut_keeps_signed_out_session :
  ~ (forall fetchJSON w k,
       getKeyPair (storage w) = Some k ->
       let w' := fst (signOut fetchJSON noFaults w) in
       user w' = None \/
       exists s, user w' = Some s /\ publicKey (keyPair s) <> publicKey k).
Proof.
  intros H.
  specialize (H Scenario.remote (Scenario.signedIn [Scenario.keyA; Scenario.keyC])
                Scenario.keyA eq_refl).
  vm_compute in H.
  destruct H as [H|[s [Hs Hne]]]; [discriminate|].
  injection Hs as <-. apply Hne. reflexivity.
Qed.

(** C10. The exposed [userNotifications] is null when no summary has been
    fetched and also when the fetched [badgeCount] is 0; it is never the
    number 0. *)
Theorem exposed_notifications_never_zero :
  exposedUserNotifications None = None /\
  (forall summary, badgeCount summary = 0%Z ->
                   exposedUserNotifications (Some summary) = None) /\
  (forall data, exposedUserNotifications data <> Some 0%Z) /\
  (forall summary, badgeCount summary <> 0%Z ->
                   exposedUserNotifications (Some summary) = Some (badgeCount summary)).
Proof.
  split; [reflexivity|]. split; [|split].
  - intros summary H. unfold exposedUserNotifications. rewrite H. reflexivity.
  - intros [summary|]; cbn; [|discriminate].
    destruct (Z.eqb_spec (badgeCount summary) 0); [discriminate|].
    intros [= H]. contradiction.
  - intros summary H. unfold exposedUserNotifications.
    destruct (Z.eqb_spec (badgeCount summary) 0); [contradiction|reflexivity].
Qed.

Lemma exposed_notifications_never_zero_witness :
  exposedUserNotifications (Some (mkSummary 0)) = None /\
  exposedUserNotifications (Some (mkSummary 3)) = Some 3%Z.
Proof.
  split.
  - apply (proj1 (proj2 exposed_notifications_never_zero)). reflexivity.
  - apply (proj2 (proj2 (proj2 exposed_notifications_never_zero)) (mkSummary 3)).
    discriminate.
Defined.




Lemma commitUser_lastChecked F u w :
  lastCheckedNotifications (commitUser F u w) = lastCheckedNotifications w.
Proof.
  destruct w as [u0 us e l lc tc [act all lch]].
  unfold commitUser, run, userEffect, bind, storageRead, storageWrite, ret,
    worldOf, getKeyPair.
  cbn. destruct u as [s|]; cbn; [|reflexivity].
  destruct (F OpGetKeyPair); cbn; [reflexivity|].
  destruct act as [k'|]; cbn.
  - destruct (String.eqb (publicKey k') (publicKey (keyPair s))); cbn; [reflexivity|].
    destruct (F OpSetKeyPair); reflexivity.
  - destruct (F OpSetKeyPair); reflexivity.
Qed.

Lemma commitUser_lastCheckedItem F u w :
  getLastChecked (storage (commitUser F u w)) = getLastChecked (storage w).
Proof.
  destruct w as [u0 us e l lc tc [act all lch]].
  unfold commitUser, run, userEffect, bind, storageRead, storageWrite, ret,
    worldOf, getKeyPair.
  cbn. destruct u as [s|]; cbn; [|reflexivity].
  destruct (F OpGetKeyPair); cbn; [reflexivity|].
  destruct act as [k'|]; cbn.
  - destruct (String.eqb (publicKey k') (publicKey (keyPair s))); cbn; [reflexivity|].
    destruct (F OpSetKeyPair); reflexivity.
  - destruct (F OpSetKeyPair); reflexivity.
Qed.

(** No promise that settles touches the last-checked time, in the state or
    in the storage. *)
Lemma settle_lastChecked fetchJSON F t w :
  lastCheckedNotifications (settle fetchJSON F t w) = lastCheckedNotifications w /\
  getLastChecked (storage (settle fetchJSON F t w)) = getLastChecked (storage w).
Proof.
  destruct t as [k|ks]; cbn [settle].
  - destruct (fetchUserForKey fetchJSON k) as [[u|]|e]; try (split; reflexivity).
    cbn. split; [apply commitUser_lastChecked | apply commitUser_lastCheckedItem].
  - destruct (promiseAll _); split; reflexivity.
Qed.

Lemma settleAll_lastChecked fetchJSON F ts w :
  lastCheckedNotifications (settleAll fetchJSON F ts w) = lastCheckedNotifications w /\
  getLastChecked (storage (settleAll fetchJSON F ts w)) = getLastChecked (storage w).
Proof.
  unfold settleAll. revert w.
  induction ts as [|t ts IH]; intros w; cbn; [split; reflexivity|].
  destruct (IH (settle fetchJSON F t w)) as [H1 H2].
  destruct (settle_lastChecked fetchJSON F t w) as [H3 H4].
  split; congruence.
Qed.

Lemma storageAfterSync_lastChecked forceKeyPair ls :
  getLastChecked (storageAfterSync forceKeyPair ls) = getLastChecked ls.
Proof.
  unfold storageAfterSync.
  destruct (candidate forceKeyPair ls) as [k|];
    [destruct (enumerated k (getKeyPairs ls))|]; destruct forceKeyPair; reflexivity.
Qed.

(** The synchronous part of the startup effect on a storage that does not
    throw: that of [handleUserAuth()], then the last-checked time and the
    timeline cursor, or a RangeError when what is persisted is no date. *)
Lemma startupSync_noFaults toISOString parseDate now cursorNow w :
  run (startupSync toISOString parseDate noFaults now cursorNow) w =
  let r := run (handleUserAuthSync noFaults None) w in
  match parseDate (lastCheckedOrNow toISOString now (storage w)) with
  | Some d =>
      ((setTimelineCursor (Some cursorNow)
          (setLastCheckedNotifications (Some d) (worldOf r)), tasksOf r),
       Returned tt)
  | None => ((worldOf r, tasksOf r), Thrown RangeError)
  end.
Proof.
  pose proof (handleUserAuthSync_noFaults None w) as Hs.
  unfold run, startupSync, bind in *. rewrite Hs. clear Hs.
  assert (Hd : forall ls, getLastChecked ls = getLastChecked (storage w) ->
                          lastCheckedOrNow toISOString now ls =
                          lastCheckedOrNow toISOString now (storage w)).
  { intros ls Hls. unfold lastCheckedOrNow. rewrite Hls. reflexivity. }
  destruct (candidate None (storage w)) as [k|];
    unfold update, throw, worldOf, tasksOf; cbn [fst snd].
  - rewrite (Hd (storage (setStorage (storageAfterSync None (storage w))
                                     (setLoading true w))))
      by apply storageAfterSync_lastChecked.
    destruct (parseDate (lastCheckedOrNow toISOString now (storage w)));
      reflexivity.
  - rewrite (Hd (storage (setLoading false (setUser None (setLoading true w)))))
      by reflexivity.
    destruct (parseDate (lastCheckedOrNow toISOString now (storage w)));
      reflexivity.
Qed.

(** After the startup effect, the last-checked time is the date persisted,
    or the current time when the persisted string is missing or empty, and
    it has been written back. *)
Lemma startup_lastChecked toISOString parseDate fetchJSON now cursorNow w d :
  parseDate (lastCheckedOrNow toISOString now (storage w)) = Some d ->
  let w' := fst (startup toISOString parseDate fetchJSON noFaults now cursorNow w) in
  lastCheckedNotifications w' = Some d /\
  getLastChecked (storage w') = Some (toISOString d).
Proof.
  intros Hd w'. subst w'. unfold startup.
  rewrite startupSync_noFaults, Hd. cbn [outcomeOf worldOf tasksOf fst snd].
  match goal with
  | |- context [settleAll fetchJSON noFaults ?ts ?w1] =>
      destruct (settleAll_lastChecked fetchJSON noFaults ts w1) as [H1 H2]
  end.
  rewrite H1, H2. split; reflexivity.
Qed.

(** When what is persisted is no date, the provider does not survive the
    startup effect, and the persisted string stays what it was. *)
Lemma startup_unparseable toISOString parseDate fetchJSON now cursorNow w :
  parseDate (lastCheckedOrNow toISOString now (storage w)) = None ->
  snd (startup toISOString parseDate fetchJSON noFaults now cursorNow w) =
    Thrown RangeError /\
  getLastChecked
    (storage (fst (startup toISOString parseDate fetchJSON noFaults now cursorNow w))) =
    getLastChecked (storage w).
Proof.
  intros Hd. unfold startup.
  rewrite startupSync_noFaults, Hd. cbn [outcomeOf worldOf tasksOf fst snd].
  split; [reflexivity|].
  rewrite handleUserAuthSync_noFaults.
  destruct (candidate None (storage w)) as [k|]; cbn [fst];
    [apply storageAfterSync_lastChecked | reflexivity].
Qed.

(** C9, as the code has it. [resetNotifications] sets
    [lastCheckedNotifications] to the current time; every date it is set to
    is written to the ['lastChecked'] item; the startup effect initialises
    it from the persisted string when that string is a date, and from the
    current time when none is persisted (an empty string counting as
    none), and writes it back. *)
Theorem lastChecked_persisted toISOString parseDate fetchJSON now cursorNow w :
  parseDate (toISOString now) = Some now ->
  (lastCheckedNotifications (resetNotifications toISOString now w) = Some now /\
   getLastChecked (storage (resetNotifications toISOString now w)) =
   Some (toISOString now)) /\
  (forall d,
     lastCheckedNotifications (commitLastChecked toISOString (Some d) w) = Some d /\
     getLastChecked (storage (commitLastChecked toISOString (Some d) w)) =
     Some (toISOString d)) /\
  let w' := fst (startup toISOString parseDate fetchJSON noFaults now cursorNow w) in
  match getLastChecked (storage w) with
  | Some s =>
      if String.eqb s "" then lastCheckedNotifications w' = Some now
      else forall d, parseDate s = Some d -> lastCheckedNotifications w' = Some d
  | None => lastCheckedNotifications w' = Some now
  end /\
  (forall d, parseDate (lastCheckedOrNow toISOString now (storage w)) = Some d ->
             getLastChecked (storage w') = Some (toISOString d)).
Proof.
  intros Hnow.
  split; [split; reflexivity|]. split; [intros d; split; reflexivity|].
  intros w'. split.
  - destruct (getLastChecked (storage w)) as [s|] eqn:Es.
    + destruct (String.eqb s "") eqn:Ee.
      * apply (startup_lastChecked toISOString parseDate fetchJSON now cursorNow w now).
        unfold lastCheckedOrNow. rewrite Es, Ee. exact Hnow.
      * intros d Hd.
        apply (startup_lastChecked toISOString parseDate fetchJSON now cursorNow w d).
        unfold lastCheckedOrNow. rewrite Es, Ee. exact Hd.
    + apply (startup_lastChecked toISOString parseDate fetchJSON now cursorNow w now).
      unfold lastCheckedOrNow. rewrite Es. exact Hnow.
  - intros d Hd.
    apply (startup_lastChecked toISOString parseDate fetchJSON now cursorNow w d Hd).
Qed.

Lemma lastChecked_persisted_witness :
  let w := initialWorld (mkLocalStorage None [Scenario.keyA] (Some "1699999999000")) in
  let w0 := initialWorld (mkLocalStorage None [Scenario.keyA] None) in
  let now := 1700000000000%Z in
  lastCheckedNotifications
    (resetNotifications Scenario.toISOString now w) = Some now /\
  getLastChecked
    (storage (resetNotifications Scenario.toISOString now w)) = Some "1700000000000" /\
  lastCheckedNotifications
    (fst (startup Scenario.toISOString Scenario.parseDate Scenario.remote noFaults
            now now w)) = Some 1699999999000%Z /\
  lastCheckedNotifications
    (fst (startup Scenario.toISOString Scenario.parseDate Scenario.remote noFaults
            now now w0)) = Some now.
Proof.
  intros w w0 now.
  assert (Hnow : Scenario.parseDate (Scenario.toISOString now) = Some now)
    by (vm_compute; reflexivity).
  destruct (lastChecked_persisted Scenario.toISOString Scenario.parseDate
              Scenario.remote now now w Hnow) as [[Hr1 Hr2] [_ [Hs _]]].
  destruct (lastChecked_persisted Scenario.toISOString Scenario.parseDate
              Scenario.remote now now w0 Hnow) as [_ [_ [Hs0 _]]].
  split; [exact Hr1|]. split; [exact Hr2|].
  split; [apply (Hs 1699999999000%Z); vm_compute; reflexivity | exact Hs0].
Defined.

(** C9, as the claim has it, fails: with a persisted ['lastChecked'] that is
    no date, the startup effect ends in a RangeError; no last-checked time
    is set and the persisted string is not replaced. *)
Lemma unparseable_lastChecked_is_not_initialised :
  ~ (forall (toISOString : Date -> string) (parseDate : string -> option Date)
            fetchJSON now cursorNow w s,
       getLastChecked (storage w) = Some s ->
       let w' := fst (startup toISOString parseDate fetchJSON noFaults
                        now cursorNow w) in
       exists d, lastCheckedNotifications w' = Some d /\
                 getLastChecked (storage w') = Some (toISOString d)).
Proof.
  intros H.
  destruct (H Scenario.toISOString Scenario.parseDate Scenario.remote
              1700000000000%Z 1700000000000%Z
              (initialWorld (mkLocalStorage None [] (Some "yesterday")))
              "yesterday" eq_refl) as [d [Hd _]].
  vm_compute in Hd. discriminate.
Qed.

(** ** Further properties of [handleUserAuth] *)

Lemma handleUserAuth_users_enumerated_witness :
  let w := initialWorld (mkLocalStorage (Some Scenario.keyB)
                           [Scenario.keyA; Scenario.keyC; Scenario.keyB] None) in
  let w' := fst (handleUserAuth Scenario.remote noFaults None w) in
  users w' = [Scenario.sessionA; Scenario.sessionB] /\
  entriesFor "pkB" (users w') = 1 /\
  entriesFor "pkC" (users w') = 0.
Proof.
  intros w w'.
  destruct (handleUserAuth_users_enumerated Scenario.remote None w)
    as [_ [Hus Hcount]]; [reflexivity | reflexivity |].
  split; [exact Hus|].
  assert (Hnd : NoDup (map publicKey (getKeyPairs
                  (storage (fst (handleUserAuth Scenario.remote noFaults None w)))))).
  { vm_compute. repeat constructor; cbn; intuition discriminate. }
  split.
  - apply (Hcount Hnd Scenario.keyB). vm_compute. auto.
  - apply (Hcount Hnd Scenario.keyC). vm_compute. auto.
Defined.

Lemma handleUserAuth_idempotent_witness :
  let w := initialWorld (mkLocalStorage None [Scenario.keyA; Scenario.keyB] None) in
  let once := fst (handleUserAuth Scenario.remote noFaults None w) in
  let twice := fst (handleUserAuth Scenario.remote noFaults None once) in
  user once = Some Scenario.sessionA /\
  user twice = user once /\ users twice = users once /\
  loading twice = loading once /\ storage twice = storage once.
Proof.
  intros w once twice. split; [reflexivity|].
  apply (handleUserAuth_idempotent Scenario.remote w). reflexivity.
Defined.

Lemma NoDup_snoc {A} (l : list A) a : NoDup l -> ~ In a l -> NoDup (l ++ [a]).
Proof.
  induction l as [|b l IH]; cbn; intros Hnd Hin.
  - constructor; [tauto | constructor].
  - inversion Hnd as [|b' l' Hb Hl]; subst. constructor.
    + rewrite in_app_iff. cbn. intros [H|[H|[]]]; [tauto|]. apply Hin. auto.
    + apply IH; [exact Hl | tauto].
Qed.

Lemma getKeyPairs_storageAfterSync forceKeyPair ls :
  getKeyPairs (storageAfterSync forceKeyPair ls) =
  getKeyPairs ls ++
  match candidate forceKeyPair ls with
  | Some k => if enumerated k (getKeyPairs ls) then [] else [k]
  | None => []
  end.
Proof.
  unfold storageAfterSync.
  destruct (candidate forceKeyPair ls) as [k|];
    [destruct (enumerated k (getKeyPairs ls))|];
    destruct forceKeyPair; cbn; rewrite ?app_nil_r; reflexivity.
Qed.

(** X4. A call never removes or reorders an enumerated key pair: it appends
    the candidate when no enumerated key pair has its [publicKey], and
    nothing otherwise. Public keys that were distinct stay distinct. *)
Theorem handleUserAuth_store_grows fetchJSON forceKeyPair w :
  let w' := fst (handleUserAuth fetchJSON noFaults forceKeyPair w) in
  getKeyPairs (storage w') =
    getKeyPairs (storage w) ++
    match candidate forceKeyPair (storage w) with
    | Some k => if enumerated k (getKeyPairs (storage w)) then [] else [k]
    | None => []
    end /\
  (NoDup (map publicKey (getKeyPairs (storage w))) ->
   NoDup (map publicKey (getKeyPairs (storage w')))).
Proof.
  intros w'.
  assert (Hks : getKeyPairs (storage w') =
                getKeyPairs (storage w) ++
                match candidate forceKeyPair (storage w) with
                | Some k => if enumerated k (getKeyPairs (storage w)) then [] else [k]
                | None => []
                end).
  { subst w'. rewrite handleUserAuth_storage.
    pose proof (getKeyPairs_storageAfterSync forceKeyPair (storage w)) as H.
    destruct (candidate forceKeyPair (storage w)) as [k|];
      [|rewrite app_nil_r; reflexivity].
    destruct (fetchUserForKey fetchJSON k) as [[u|]|e];
      rewrite ?getKeyPairs_reconcile; exact H. }
  split; [exact Hks|].
  intros Hnd. rewrite Hks.
  destruct (candidate forceKeyPair (storage w)) as [k|];
    [|rewrite app_nil_r; exact Hnd].
  destruct (enumerated k (getKeyPairs (storage w))) eqn:He;
    [rewrite app_nil_r; exact Hnd|].
  rewrite map_app. cbn. apply NoDup_snoc; [exact Hnd|].
  apply enumerated_false. exact He.
Qed.

Lemma handleUserAuth_store_grows_witness :
  let w := Scenario.signedIn [Scenario.keyA] in
  let w' := fst (handleUserAuth Scenario.remote noFaults (Some Scenario.keyD) w) in
  getKeyPairs (storage w') = [Scenario.keyA; Scenario.keyD] /\
  NoDup (map publicKey (getKeyPairs (storage w'))).
Proof.
  intros w w'.
  destruct (handleUserAuth_store_grows Scenario.remote (Some Scenario.keyD) w)
    as [Hks Hnd].
  split; [exact Hks|].
  apply Hnd. repeat constructor. cbn. tauto.
Defined.

(** X5. A forced key pair ends up persisted as the active one and
    enumerated by the store, whether or not its profile could be fetched. *)
Theorem forced_key_pair_is_stored fetchJSON w k :
  let w' := fst (handleUserAuth fetchJSON noFaults (Some k) w) in
  getKeyPair (storage w') = Some k /\
  enumerated k (getKeyPairs (storage w')) = true.
Proof.
  intros w'.
  assert (Hs : storage w' = storageAfterSync (Some k) (storage w)).
  { subst w'. rewrite handleUserAuth_storage. cbn [candidate].
    assert (Hr : reconcile k (storageAfterSync (Some k) (storage w)) =
                 storageAfterSync (Some k) (storage w)).
    { unfold storageAfterSync, reconcile. cbn [candidate].
      destruct (enumerated k (getKeyPairs (storage w))); cbn;
        rewrite String.eqb_refl; reflexivity. }
    destruct (fetchUserForKey fetchJSON k) as [[u|]|e]; [exact Hr | |]; reflexivity. }
  rewrite Hs. unfold storageAfterSync. cbn [candidate].
  destruct (enumerated k (getKeyPairs (storage w))) eqn:He; cbn.
  - split; [reflexivity | exact He].
  - split; [reflexivity|]. unfold enumerated.
    rewrite existsb_app. cbn. rewrite String.eqb_refl.
    rewrite orb_true_r. reflexivity.
Qed.

(** X6. A candidate whose fetch is fulfilled without a profile (a null or
    missing [result]) leaves the active session and [error] as they were,
    and [loading] ends off. *)
Theorem null_result_keeps_session fetchJSON forceKeyPair w k :
  candidate forceKeyPair (storage w) = Some k ->
  fetchUserForKey fetchJSON k = Returned None ->
  let w' := fst (handleUserAuth fetchJSON noFaults forceKeyPair w) in
  user w' = user w /\ error w' = error w /\ loading w' = false.
Proof.
  intros Hc Hf w'. subst w'.
  rewrite handleUserAuth_user, handleUserAuth_error, handleUserAuth_loading, Hc.
  unfold rejected. rewrite Hf. repeat split.
Qed.

Lemma null_result_keeps_session_witness :
  let w := Scenario.signedIn [Scenario.keyA; Scenario.keyC] in
  let w' := fst (handleUserAuth Scenario.remote noFaults (Some Scenario.keyC) w) in
  user w' = Some Scenario.sessionA /\ error w' = None /\ loading w' = false.
Proof.
  intros w w'.
  apply (null_result_keeps_session Scenario.remote (Some Scenario.keyC) w
           Scenario.keyC); reflexivity.
Defined.

(** ** Further properties of the effect on [user] *)

(** X7. After [user] is set to a session, the persisted active key pair has
    that session's [publicKey]; the enumeration is not touched, and a
    persisted key pair that already has that [publicKey] is left in place,
    even when it is not the session's own key pair object. *)
Theorem user_effect_invariant s w :
  let w' := commitUser noFaults (Some s) w in
  (exists k, getKeyPair (storage w') = Some k /\
             publicKey k = publicKey (keyPair s)) /\
  getKeyPairs (storage w') = getKeyPairs (storage w) /\
  (forall k, getKeyPair (storage w) = Some k ->
             publicKey k = publicKey (keyPair s) ->
             storage w' = storage w).
Proof.
  intros w'. subst w'. rewrite commitUser_noFaults.
  unfold setStorage. cbn [storage].
  split; [|split].
  - unfold reconcile. destruct (getKeyPair (storage w)) as [k|] eqn:E.
    + destruct (String.eqb_spec (publicKey k) (publicKey (keyPair s))) as [Ek|Ek].
      * exists k. auto.
      * exists (keyPair s). auto.
    + exists (keyPair s). auto.
  - apply getKeyPairs_reconcile.
  - intros k Hk Hpk. unfold reconcile. rewrite Hk, Hpk, String.eqb_refl.
    reflexivity.
Qed.

Lemma user_effect_invariant_witness :
  let stale := mkKeyPair "pkB" "an older secret" in
  let w := setStorage (mkLocalStorage (Some stale) [Scenario.keyA; stale] None)
                      (Scenario.signedIn []) in
  getKeyPair (storage (commitUser noFaults (Some Scenario.sessionB) w)) = Some stale.
Proof.
  intros stale w.
  destruct (user_effect_invariant Scenario.sessionB w) as [_ [_ Hsame]].
  rewrite (Hsame stale); reflexivity.
Defined.

Lemma fetchUserForKey_publicKey fetchJSON k k' :
  publicKey k = publicKey k' ->
  fetchUserForKey fetchJSON k = fetchUserForKey fetchJSON k'.
Proof. intros H. unfold fetchUserForKey. rewrite H. reflexivity. Qed.

(** X8. A selection made in the menu that changes the active session
    survives a later [handleUserAuth()]: when the selected session's key
    pair still resolves to its profile, the call ends with an active session
    of that profile and that [publicKey]. *)
Theorem selected_session_survives_reload fetchJSON s w :
  user w <> Some s ->
  fetchUserForKey fetchJSON (keyPair s) = Returned (Some (profile s)) ->
  let w1 := selectUser noFaults s w in
  let w2 := fst (handleUserAuth fetchJSON noFaults None w1) in
  exists s', user w2 = Some s' /\
             profile s' = profile s /\
             publicKey (keyPair s') = publicKey (keyPair s).
Proof.
  intros _ Hf w1 w2.
  destruct (user_effect_public_key s w) as [k [Hk Hpk]].
  fold (selectUser noFaults s w) in Hk. fold w1 in Hk.
  assert (Hc : candidate None (storage w1) = Some k).
  { unfold candidate. rewrite Hk. destruct (getKeyPairs (storage w1)); reflexivity. }
  exists (mkUserWithKey (profile s) k). subst w2.
  rewrite handleUserAuth_user, Hc, (fetchUserForKey_publicKey fetchJSON k (keyPair s) Hpk), Hf.
  auto.
Qed.

Lemma selected_session_survives_reload_witness :
  let w := Scenario.signedIn [Scenario.keyA; Scenario.keyB] in
  let w1 := selectUser noFaults Scenario.sessionB w in
  let w2 := fst (handleUserAuth Scenario.remote noFaults None w1) in
  user w = Some Scenario.sessionA /\
  exists s', user w2 = Some s' /\ profile s' = Scenario.bob /\
             publicKey (keyPair s') = "pkB".
Proof.
  intros w w1 w2. split; [reflexivity|].
  apply (selected_session_survives_reload Scenario.remote Scenario.sessionB w).
  - discriminate.
  - reflexivity.
Defined.

(** ** Further properties of [signOut] *)

(** X9. [signOut] is not undone when it fails half way: if removing the
    ['keyPair'] item works and [removeKeyPair] then throws, the persisted
    active key pair is gone, the enumeration still holds every key pair,
    [handleUserAuth] is not run (the session, [users] and [loading] are as
    before) and the failure is in [error]. *)
Theorem signOut_interrupted fetchJSON F w k :
  getKeyPair (storage w) = Some k ->
  F OpGetKeyPair = false ->
  F OpRemoveItem = false ->
  F OpRemoveKeyPair = true ->
  let w' := fst (signOut fetchJSON F w) in
  getKeyPair (storage w') = None /\
  getKeyPairs (storage w') = getKeyPairs (storage w) /\
  user w' = user w /\ users w' = users w /\ loading w' = loading w /\
  error w' = Some (StorageError OpRemoveKeyPair).
Proof.
  intros Hact Hget Hitem Hrem w'. subst w'.
  destruct w as [u us e l lc tc [act all lch]]. cbn in Hact. subst act.
  unfold signOut, run, signOutSync, tryCatch, signOutBody, bind, storageRead,
    storageWrite, update, tasksOf, worldOf, outcomeOf.
  cbn. rewrite Hget. cbn. rewrite Hitem. cbn. rewrite Hrem. cbn.
  repeat split.
Qed.

Lemma signOut_interrupted_witness :
  let F := fun op => match op with OpRemoveKeyPair => true | _ => false end in
  let w := Scenario.signedIn [Scenario.keyA; Scenario.keyB] in
  let w' := fst (signOut Scenario.remote F w) in
  getKeyPair (storage w') = None /\
  getKeyPairs (storage w') = [Scenario.keyA; Scenario.keyB] /\
  user w' = Some Scenario.sessionA.
Proof.
  intros F w w'.
  destruct (signOut_interrupted Scenario.remote F w Scenario.keyA)
    as [H1 [H2 [H3 _]]]; try reflexivity.
  split; [exact H1|]. split; [exact H2 | exact H3].
Defined.

(** ** What the session operations leave alone *)

Lemma commitUser_frame F u w :
  users (commitUser F u w) = users w /\
  loading (commitUser F u w) = loading w /\
  timelineCursor (commitUser F u w) = timelineCursor w /\
  getKeyPairs (storage (commitUser F u w)) = getKeyPairs (storage w).
Proof.
  destruct w as [u0 us e l lc tc [act all lch]].
  unfold commitUser, run, userEffect, bind, storageRead, storageWrite, ret,
    worldOf, getKeyPair.
  cbn. destruct u as [s|]; cbn; [|repeat split].
  destruct (F OpGetKeyPair); cbn; [repeat split|].
  destruct act as [k'|]; cbn.
  - destruct (String.eqb (publicKey k') (publicKey (keyPair s))); cbn;
      [repeat split|].
    destruct (F OpSetKeyPair); repeat split.
  - destruct (F OpSetKeyPair); repeat split.
Qed.

(** The synchronous part of [handleUserAuth], whatever the storage does,
    writes neither [users], [error], the last-checked time, the timeline
    cursor nor the ['lastChecked'] item. *)
Lemma handleUserAuthSync_frame F forceKeyPair x :
  let w1 := fst (fst (handleUserAuthSync F forceKeyPair x)) in
  users w1 = users (fst x) /\
  error w1 = error (fst x) /\
  lastCheckedNotifications w1 = lastCheckedNotifications (fst x) /\
  timelineCursor w1 = timelineCursor (fst x) /\
  getLastChecked (storage w1) = getLastChecked (storage (fst x)).
Proof.
  destruct x as [[u us e l lc tc [act all lch]] ts].
  unfold handleUserAuthSync, bind, update, spawn, storageRead, storageWrite, ret,
    commitUser, run, userEffect, worldOf.
  cbn.
  destruct forceKeyPair as [k|]; cbn;
    repeat (match goal with
            | |- context [F ?op] => destruct (F op); cbn
            | |- context [match ?a with Some _ => _ | None => _ end] =>
                is_var a; destruct a; cbn
            | |- context [match ?a with [] => _ | _ :: _ => _ end] =>
                is_var a; destruct a; cbn
            | |- context [if ?b then _ else _] => destruct b; cbn
            end);
    repeat split.
Qed.

(** Nor does the [try] block of [signOut]. *)
Lemma signOutBody_frame F x :
  let w1 := fst (fst (signOutBody F x)) in
  users w1 = users (fst x) /\
  error w1 = error (fst x) /\
  lastCheckedNotifications w1 = lastCheckedNotifications (fst x) /\
  timelineCursor w1 = timelineCursor (fst x) /\
  getLastChecked (storage w1) = getLastChecked (storage (fst x)).
Proof.
  destruct x as [[u us e l lc tc [act all lch]] ts].
  unfold signOutBody, bind, storageRead, storageWrite, throw.
  cbn -[handleUserAuthSync].
  destruct (F OpGetKeyPair); cbn -[handleUserAuthSync]; [repeat split|].
  destruct (F OpRemoveItem); cbn -[handleUserAuthSync]; [repeat split|].
  destruct act as [k|]; cbn -[handleUserAuthSync]; [|repeat split].
  destruct (F OpRemoveKeyPair); cbn -[handleUserAuthSync]; [repeat split|].
  match goal with
  | |- context [handleUserAuthSync F None ?y] =>
      pose proof (handleUserAuthSync_frame F None y) as H;
      destruct (handleUserAuthSync F None y) as [[w3 ts3] [[]|e3]]
  end; exact H.
Qed.

Lemma settle_timelineCursor fetchJSON F t w :
  timelineCursor (settle fetchJSON F t w) = timelineCursor w.
Proof.
  destruct t as [k|ks]; cbn [settle].
  - destruct (fetchUserForKey fetchJSON k) as [[u|]|e]; try reflexivity.
    cbn. apply commitUser_frame.
  - destruct (promiseAll _); reflexivity.
Qed.

Lemma settleAll_timelineCursor fetchJSON F ts w :
  timelineCursor (settleAll fetchJSON F ts w) = timelineCursor w.
Proof.
  unfold settleAll. revert w.
  induction ts as [|t ts IH]; intros w; cbn; [reflexivity|].
  rewrite IH. apply settle_timelineCursor.
Qed.

(** X10. Neither [handleUserAuth] nor [signOut], with whatever outcome of
    the fetches and of the storage, touches the last-checked time, the
    timeline cursor or the persisted ['lastChecked'] item: signing in, out
    or over does not reset the notification state. *)
Theorem session_operations_keep_notification_state fetchJSON F forceKeyPair w :
  let wa := fst (handleUserAuth fetchJSON F forceKeyPair w) in
  let ws := fst (signOut fetchJSON F w) in
  (lastCheckedNotifications wa = lastCheckedNotifications w /\
   timelineCursor wa = timelineCursor w /\
   getLastChecked (storage wa) = getLastChecked (storage w)) /\
  (lastCheckedNotifications ws = lastCheckedNotifications w /\
   timelineCursor ws = timelineCursor w /\
   getLastChecked (storage ws) = getLastChecked (storage w)).
Proof.
  intros wa ws. subst wa ws. unfold handleUserAuth, signOut. cbn [fst]. split.
  - destruct (settleAll_lastChecked fetchJSON F
                (tasksOf (run (handleUserAuthSync F forceKeyPair) w))
                (worldOf (run (handleUserAuthSync F forceKeyPair) w))) as [H1 H2].
    rewrite H1, H2, settleAll_timelineCursor.
    destruct (handleUserAuthSync_frame F forceKeyPair (w, [])) as [_ [_ [H3 [H4 H5]]]].
    repeat split; assumption.
  - destruct (settleAll_lastChecked fetchJSON F
                (tasksOf (run (signOutSync F) w))
                (worldOf (run (signOutSync F) w))) as [H1 H2].
    rewrite H1, H2, settleAll_timelineCursor.
    pose proof (signOutBody_frame F (w, [])) as H.
    unfold worldOf, run, signOutSync, tryCatch, update.
    destruct (signOutBody F (w, [])) as [[w1 ts1] [[]|e1]];
      destruct H as [_ [_ [H3 [H4 H5]]]]; repeat split; assumption.
Qed.

(** X11. [error] is written in one place only, the [catch] of [signOut]:
    [handleUserAuth] never writes it, whatever fails, and [signOut] leaves
    it as it was unless its [try] block throws. In particular nothing ever
    clears an [error] once set. *)
Theorem error_written_by_catch_only fetchJSON F forceKeyPair w :
  error (fst (handleUserAuth fetchJSON F forceKeyPair w)) = error w /\
  error (fst (signOut fetchJSON F w)) =
    match outcomeOf (run (signOutBody F) w) with
    | Thrown e => Some e
    | Returned _ => error w
    end /\
  (error w <> None -> error (fst (signOut fetchJSON F w)) <> None).
Proof.
  assert (Hs : error (fst (signOut fetchJSON F w)) =
               match outcomeOf (run (signOutBody F) w) with
               | Thrown e => Some e
               | Returned _ => error w
               end).
  { unfold signOut. cbn [fst]. rewrite settleAll_error.
    pose proof (signOutBody_frame F (w, [])) as H.
    unfold worldOf, outcomeOf, run, signOutSync, tryCatch, update.
    destruct (signOutBody F (w, [])) as [[w1 ts1] [[]|e1]]; cbn [fst snd];
      [|reflexivity].
    destruct H as [_ [H _]]. exact H. }
  split; [|split; [exact Hs|]].
  - unfold handleUserAuth. cbn [fst]. rewrite settleAll_error.
    destruct (handleUserAuthSync_frame F forceKeyPair (w, [])) as [_ [H _]].
    exact H.
  - intros Hne. rewrite Hs.
    destruct (outcomeOf (run (signOutBody F) w)); [exact Hne | discriminate].
Qed.

Lemma error_written_by_catch_only_witness :
  let w := setError (Some NetworkError)
             (Scenario.signedIn [Scenario.keyA; Scenario.keyB]) in
  error (fst (signOut Scenario.remote noFaults w)) <> None.
Proof.
  intros w.
  apply (proj2 (proj2 (error_written_by_catch_only Scenario.remote noFaults None w))).
  discriminate.
Defined.

(** ** Further properties of the notification state *)

(** X12. The last-checked time survives a restart: after
    [resetNotifications] at time [now], a provider started later on the same
    storage initialises [lastCheckedNotifications] to [now], not to the time
    of the restart. *)
Theorem lastChecked_survives_restart toISOString parseDate fetchJSON
    now later cursorNow w :
  parseDate (toISOString now) = Some now ->
  toISOString now <> "" ->
  let ls := storage (resetNotifications toISOString now w) in
  lastCheckedNotifications
    (fst (startup toISOString parseDate fetchJSON noFaults later cursorNow
            (initialWorld ls))) = Some now.
Proof.
  intros Hround Hne ls.
  apply (startup_lastChecked toISOString parseDate fetchJSON later cursorNow
           (initialWorld ls) now).
  unfold lastCheckedOrNow. subst ls. cbn.
  destruct (String.eqb_spec (toISOString now) ""); [contradiction|].
  exact Hround.
Qed.

Lemma lastChecked_survives_restart_witness :
  let w := Scenario.signedIn [Scenario.keyA] in
  let ls := storage (resetNotifications Scenario.toISOString 1700000000000%Z w) in
  lastCheckedNotifications
    (fst (startup Scenario.toISOString Scenario.parseDate Scenario.remote noFaults
            1800000000000%Z 1800000000000%Z (initialWorld ls))) =
  Some 1700000000000%Z.
Proof.
  intros w ls.
  apply (lastChecked_survives_restart Scenario.toISOString Scenario.parseDate
           Scenario.remote 1700000000000%Z 1800000000000%Z 1800000000000%Z w).
  - vm_compute. reflexivity.
  - vm_compute. discriminate.
Defined.

Lemma append_cancel_l (p a b : string) : (p ++ a)%string = (p ++ b)%string -> a = b.
Proof.
  induction p as [|c p IH]; cbn; [auto|].
  intros [= H]. exact (IH H).
Qed.

(** X13. [resetNotifications] gives an enabled poller a new key, carrying
    the new timestamp, whenever the new time renders differently from the
    old one; a disabled poller stays disabled unless it only waited for a
    last-checked time. *)
Theorem reset_rekeys_poller toISOString pathname now w :
  (forall url,
     notificationsKey toISOString pathname w = Some url ->
     (forall d, lastCheckedNotifications w = Some d ->
                toISOString d <> toISOString now) ->
     exists url',
       notificationsKey toISOString pathname
         (resetNotifications toISOString now w) = Some url' /\ url' <> url) /\
  (notificationsKey toISOString pathname
     (resetNotifications toISOString now w) = None <->
   pathname = "/notifications" \/ user w = None \/
   (exists s, user w = Some s /\ id (profile s) = "")).
Proof.
  assert (Hu : user (resetNotifications toISOString now w) = user w)
    by (destruct w; reflexivity).
  assert (Hl : lastCheckedNotifications (resetNotifications toISOString now w) =
               Some now) by (destruct w; reflexivity).
  unfold notificationsKey. rewrite Hu, Hl.
  destruct (String.eqb_spec pathname "/notifications") as [Ep|Ep]; cbn [negb].
  { split; [discriminate | split; auto]. }
  destruct (user w) as [s|] eqn:Eu.
  2:{ split; [discriminate | split; auto]. }
  destruct (String.eqb_spec (id (profile s)) "") as [Ei|Ei]; cbn [negb].
  { split; [discriminate | split; eauto 6]. }
  split.
  - intros url Hurl Hd.
    destruct (lastCheckedNotifications w) as [d|]; [|discriminate].
    assert (Hurl' : url = ("/api/user/" ++ id (profile s)
                           ++ "/notifications?last_time=" ++ toISOString d)%string)
      by congruence.
    eexists. split; [reflexivity|].
    rewrite Hurl'. intros H. apply (Hd d eq_refl). symmetry.
    apply (append_cancel_l "/api/user/") in H.
    apply (append_cancel_l (id (profile s))) in H.
    apply (append_cancel_l "/notifications?last_time=") in H. exact H.
  - split; [discriminate|].
    intros [H|[H|[s' [Hs Hi]]]]; try discriminate; try contradiction.
    injection Hs as <-. contradiction.
Qed.

Lemma reset_rekeys_poller_witness :
  let w := setLastCheckedNotifications (Some 1700000000000%Z)
             (Scenario.signedIn [Scenario.keyA]) in
  notificationsKey Scenario.toISOString "/home" w =
    Some "/api/user/1/notifications?last_time=1700000000000" /\
  exists url',
    notificationsKey Scenario.toISOString "/home"
      (resetNotifications Scenario.toISOString 1700000010000%Z w) = Some url' /\
    url' <> "/api/user/1/notifications?last_time=1700000000000".
Proof.
  intros w. split; [reflexivity|].
  apply (proj1 (reset_rekeys_poller Scenario.toISOString "/home" 1700000010000%Z w)).
  - reflexivity.
  - intros d [= <-]. vm_compute. discriminate.
Defined.

(** ** The startup effect *)

Lemma settle_sameSession fetchJSON t w1 w2 :
  sameSession w1 w2 ->
  sameSession (settle fetchJSON noFaults t w1) (settle fetchJSON noFaults t w2).
Proof.
  destruct w1 as [u1 us1 e1 l1 lc1 tc1 [act1 all1 lch1]].
  destruct w2 as [u2 us2 e2 l2 lc2 tc2 [act2 all2 lch2]].
  unfold sameSession. cbn. intros [-> [-> [-> [-> [-> ->]]]]].
  destruct t as [k|ks].
  - rewrite !settle_manageUser_noFaults.
    destruct (fetchUserForKey fetchJSON k) as [[u|]|e]; cbn; try (repeat split).
    + unfold reconcile. cbn. destruct act2 as [k'|]; cbn; [|reflexivity].
      destruct (String.eqb (publicKey k') (publicKey k)); reflexivity.
    + unfold reconcile. cbn. destruct act2 as [k'|]; cbn; [|reflexivity].
      destruct (String.eqb (publicKey k') (publicKey k)); reflexivity.
  - rewrite !settle_fetchAll.
    destruct (forallb _ ks); cbn; repeat split.
Qed.

Lemma settleAll_sameSession fetchJSON ts w1 w2 :
  sameSession w1 w2 ->
  sameSession (settleAll fetchJSON noFaults ts w1) (settleAll fetchJSON noFaults ts w2).
Proof.
  unfold settleAll. revert w1 w2.
  induction ts as [|t ts IH]; intros w1 w2 H; cbn; [exact H|].
  apply IH. apply settle_sameSession. exact H.
Qed.

(** X14. On a storage that does not throw and with a persisted
    last-checked string that is a date (or, none being persisted, a current
    time that is read back from its own rendering), the startup effect shows
    the session [handleUserAuth()] alone would show (same [user], [users],
    [loading], [error] and stored key pairs), sets the last-checked time to
    that date and the timeline cursor to the current time, and returns
    normally: initialising the notification state does not interfere with
    signing in. *)
Theorem startup_runs_handleUserAuth toISOString parseDate fetchJSON
    now cursorNow w d :
  parseDate (lastCheckedOrNow toISOString now (storage w)) = Some d ->
  let w' := fst (startup toISOString parseDate fetchJSON noFaults now cursorNow w) in
  let wa := fst (handleUserAuth fetchJSON noFaults None w) in
  user w' = user wa /\ users w' = users wa /\
  loading w' = loading wa /\ error w' = error wa /\
  getKeyPair (storage w') = getKeyPair (storage wa) /\
  getKeyPairs (storage w') = getKeyPairs (storage wa) /\
  lastCheckedNotifications w' = Some d /\
  timelineCursor w' = Some cursorNow /\
  snd (startup toISOString parseDate fetchJSON noFaults now cursorNow w) = Returned tt.
Proof.
  intros Hd w' wa.
  destruct (startup_lastChecked toISOString parseDate fetchJSON now cursorNow w d Hd)
    as [Hl _].
  fold w' in Hl.
  subst w' wa. unfold startup, handleUserAuth in *.
  rewrite startupSync_noFaults, Hd in *.
  cbn [outcomeOf worldOf tasksOf fst snd] in *.
  unfold worldOf, tasksOf in *.
  rewrite settleAll_timelineCursor.
  match goal with
  | |- context [settleAll fetchJSON noFaults ?ts (lastCheckedEffect toISOString ?w1)] =>
      assert (H : sameSession
                    (settleAll fetchJSON noFaults ts (lastCheckedEffect toISOString w1))
                    (settleAll fetchJSON noFaults ts
                       (fst (fst (run (handleUserAuthSync noFaults None) w)))))
  end.
  { apply settleAll_sameSession.
    destruct (fst (fst (run (handleUserAuthSync noFaults None) w)))
      as [u1 us1 e1 l1 lc1 tc1 [act1 all1 lch1]].
    unfold sameSession. cbn. repeat split. }
  destruct H as [H1 [H2 [H3 [H4 [H5 H6]]]]].
  repeat split; assumption.
Qed.

Lemma startup_runs_handleUserAuth_witness :
  let w := initialWorld (mkLocalStorage (Some Scenario.keyB)
                           [Scenario.keyA; Scenario.keyB] (Some "1699999999000")) in
  let w' := fst (startup Scenario.toISOString Scenario.parseDate Scenario.remote
                   noFaults 1700000000000%Z 1700000000001%Z w) in
  user w' = Some Scenario.sessionB /\
  users w' = [Scenario.sessionA; Scenario.sessionB] /\
  lastCheckedNotifications w' = Some 1699999999000%Z /\
  timelineCursor w' = Some 1700000000001%Z.
Proof.
  intros w w'.
  destruct (startup_runs_handleUserAuth Scenario.toISOString Scenario.parseDate
              Scenario.remote 1700000000000%Z 1700000000001%Z w 1699999999000%Z)
    as [H1 [H2 [_ [_ [_ [_ [H7 [H8 _]]]]]]]]; [vm_compute; reflexivity|].
  split; [exact H1|]. split; [exact H2|]. split; [exact H7 | exact H8].
Defined.

(** ** Session and store after a call *)

Lemma reconcile_publicKey k ls :
  exists stored, getKeyPair (reconcile k ls) = Some stored /\
                 publicKey stored = publicKey k.
Proof.
  unfold reconcile. destruct (getKeyPair ls) as [k'|] eqn:E.
  - destruct (String.eqb_spec (publicKey k') (publicKey k)) as [Ek|Ek].
    + exists k'. auto.
    + exists k. auto.
  - exists k. auto.
Qed.

(** X15. When the candidate of a call resolves to a profile, session and
    store agree afterwards: the active session is that profile with the
    candidate key pair, the persisted active key pair has the candidate's
    [publicKey], the candidate is enumerated, and [loading] is off. *)
Theorem resolved_candidate_is_consistent fetchJSON forceKeyPair w k u :
  candidate forceKeyPair (storage w) = Some k ->
  fetchUserForKey fetchJSON k = Returned (Some u) ->
  let w' := fst (handleUserAuth fetchJSON noFaults forceKeyPair w) in
  user w' = Some (mkUserWithKey u k) /\
  (exists stored, getKeyPair (storage w') = Some stored /\
                  publicKey stored = publicKey k) /\
  enumerated k (getKeyPairs (storage w')) = true /\
  loading w' = false.
Proof.
  intros Hc Hf w'. subst w'.
  rewrite handleUserAuth_user, handleUserAuth_storage, handleUserAuth_loading, Hc.
  unfold rejected. rewrite Hf.
  split; [reflexivity|]. split; [apply reconcile_publicKey|].
  split; [|reflexivity].
  rewrite getKeyPairs_reconcile, getKeyPairs_storageAfterSync, Hc.
  unfold enumerated at 1. rewrite existsb_app.
  destruct (enumerated k (getKeyPairs (storage w))) eqn:He.
  - unfold enumerated in He. rewrite He. reflexivity.
  - cbn. rewrite String.eqb_refl, !orb_true_r. reflexivity.
Qed.

Lemma resolved_candidate_is_consistent_witness :
  let w := initialWorld (mkLocalStorage None [] None) in
  let w' := fst (handleUserAuth Scenario.remote noFaults (Some Scenario.keyB) w) in
  user w' = Some Scenario.sessionB /\
  enumerated Scenario.keyB (getKeyPairs (storage w')) = true /\
  loading w' = false.
Proof.
  intros w w'.
  destruct (resolved_candidate_is_consistent Scenario.remote (Some Scenario.keyB) w
              Scenario.keyB Scenario.bob) as [H1 [_ [H3 H4]]]; try reflexivity.
  split; [exact H1|]. split; [exact H3 | exact H4].
Defined.

(** X16. Signing out the only account ends signed out: when every
    enumerated key pair has the [publicKey] of the active one, [signOut]
    leaves no active session, an empty [users], an empty store and
    [loading] off. *)
Theorem signOut_last_account fetchJSON w k :
  getKeyPair (storage w) = Some k ->
  (forall k', In k' (getKeyPairs (storage w)) -> publicKey k' = publicKey k) ->
  let w' := fst (signOut fetchJSON noFaults w) in
  user w' = None /\ users w' = [] /\ loading w' = false /\
  getKeyPair (storage w') = None /\ getKeyPairs (storage w') = [].
Proof.
  intros Hact Hall w'. subst w'.
  rewrite (signOut_noFaults _ _ _ Hact).
  assert (Hrem : filter (fun k' => negb (samePublicKey k' k))
                        (getKeyPairs (storage w)) = []).
  { induction (getKeyPairs (storage w)) as [|k0 ks IH]; cbn; [reflexivity|].
    unfold samePublicKey at 1. rewrite (Hall k0 (or_introl eq_refl)).
    rewrite String.eqb_refl. cbn. apply IH.
    intros k' H. apply Hall. right. exact H. }
  assert (Hst : storage (setStorage (removeKeyPair k (removeKeyPairItem (storage w))) w)
                = mkLocalStorage None [] (lastCheckedItem (storage w))).
  { destruct w as [u us e l lc tc [act all lch]]. cbn in *.
    unfold removeKeyPair. cbn. rewrite Hrem. reflexivity. }
  rewrite handleUserAuth_user, handleUserAuth_users, handleUserAuth_loading,
    handleUserAuth_storage, Hst.
  repeat split.
Qed.

Lemma signOut_last_account_witness :
  let w := Scenario.signedIn [Scenario.keyA] in
  let w' := fst (signOut Scenario.remote noFaults w) in
  user w = Some Scenario.sessionA /\
  user w' = None /\ users w' = [] /\ loading w' = false /\
  getKeyPair (storage w') = None /\ getKeyPairs (storage w') = [].
Proof.
  intros w w'. split; [reflexivity|].
  apply (signOut_last_account Scenario.remote w Scenario.keyA); [reflexivity|].
  intros k' [<-|[]]. reflexivity.
Defined.

(** X17. Signing out with another account left switches to it: when the
    first remaining key pair resolves to a profile, [signOut] ends with that
    session active, that key pair persisted as the active one and [loading]
    off; and [users] lists the sessions of the remaining key pairs when none
    of their fetches rejects. *)
Theorem signOut_switches_to_next fetchJSON w k next rest u :
  getKeyPair (storage w) = Some k ->
  filter (fun k' => negb (samePublicKey k' k)) (getKeyPairs (storage w)) =
    next :: rest ->
  fetchUserForKey fetchJSON next = Returned (Some u) ->
  let w' := fst (signOut fetchJSON noFaults w) in
  user w' = Some (mkUserWithKey u next) /\
  getKeyPair (storage w') = Some next /\
  loading w' = false /\
  (forallb (fun k0 => negb (rejected fetchJSON k0)) (next :: rest) = true ->
   users w' = filterNonNull (map (sessionOf fetchJSON) (next :: rest))).
Proof.
  intros Hact Hrem Hf w'. subst w'.
  rewrite (signOut_noFaults _ _ _ Hact).
  assert (Hst : storage (setStorage (removeKeyPair k (removeKeyPairItem (storage w))) w)
                = mkLocalStorage None (next :: rest) (lastCheckedItem (storage w))).
  { destruct w as [u0 us e l lc tc [act all lch]]. cbn in *.
    unfold removeKeyPair. cbn. rewrite Hrem. reflexivity. }
  destruct (handleUserAuth_nobody_active fetchJSON _ _ _ Hst) as [Hs Hu].
  rewrite Hf in Hs, Hu.
  split; [exact Hu|]. split; [rewrite Hs; reflexivity|]. split.
  - rewrite handleUserAuth_loading, Hst. cbn. unfold rejected. rewrite Hf.
    reflexivity.
  - intros Hr. rewrite handleUserAuth_users, Hst.
    cbn [getKeyPairs keyPairsItem]. rewrite Hr. reflexivity.
Qed.

Lemma signOut_switches_to_next_witness :
  let w := Scenario.signedIn [Scenario.keyA; Scenario.keyB; Scenario.keyC] in
  let w' := fst (signOut Scenario.remote noFaults w) in
  user w' = Some Scenario.sessionB /\
  getKeyPair (storage w') = Some Scenario.keyB /\
  loading w' = false /\
  users w' = [Scenario.sessionB].
Proof.
  intros w w'.
  destruct (signOut_switches_to_next Scenario.remote w Scenario.keyA Scenario.keyB
              [Scenario.keyC] Scenario.bob) as [H1 [H2 [H3 H4]]]; try reflexivity.
  split; [exact H1|]. split; [exact H2|]. split; [exact H3|].
  apply H4. reflexivity.
Defined.
